(** * AnalogGyro: calibration and measurement of an analog rate gyro

    A shallow embedding of [wpilib/analoggyro.py] and proofs about it.

    Numbers.  A Python [int] is a [Z].  A Python [float] is modelled by an
    exact rational [Q]: the rounding of binary64 arithmetic is abstracted
    away.  Python's true division raises [ZeroDivisionError] on a zero
    divisor, and [int(x)] truncates toward zero; both are kept.

    What the exact model says of the running program depends on the
    statement.  Every binary64 operation is the exact operation followed by
    a rounding that is monotone and that keeps zero and every integer below
    2^53, so statements of sign and of order (a result is not negative, a
    result does not decrease when an input grows, a result is zero on a zero
    input) hold of the program as they are stated.  An exact equation between
    results that the program rounds separately holds of the program up to
    rounding only: the angles of two accumulator outputs do not add up to
    the last bit ([binary64_getAngle_sum]), and an offset below the spacing
    of binary64 numbers around the center is absorbed by it
    ([binary64_getRate_absorbed_offset]).  Where an exact value lies within
    rounding distance of an integer, [int(...)] of the rounded value can
    differ from [int(...)] of the exact one.  In [calibrate] this needs an
    accumulated sum of the order of 2^52 (a mean of 1/2 - 2^-54 plus 0.5
    rounds to 1.0), far above what a calibration window gathers.  In
    [setDeadband] the product is of the order of 2^50 already for a deadband
    of a few millivolts, and the deadband the program pushes can be one more
    than the truncation of the exact product
    ([binary64_setDeadband_rounding]); what is stated of that deadband below
    is its sign, its order, and that it is zero for a zero voltage.  The
    arithmetic of [calibrate], [getAngle], [getRate] and [setDeadband] is
    also written out on IEEE binary64 numbers ([Module Binary64]), to
    evaluate the concrete cases as the interpreter does.

    Objects.  The driver is a record ([AnalogGyro]) whose [analog] field is
    a reference into a store of analog input channels, so that a channel
    handed in by the caller stays shared with the caller.  The channel class
    itself ([AnalogInput]), the HAL, the timer and the LiveWindow registry
    are collaborators whose code lives outside [analoggyro.py]; they are
    given a small state model below. *)

From Stdlib Require Import ZArith QArith Qabs Lia Lqa List Floats.
From stdpp Require Import base gmap.
Import ListNotations.

Local Open Scope Z_scope.

(** ** Python numbers *)

Module Py.

(** The exceptions that can escape the methods of the driver. *)
Inductive exn : Type :=
| ZeroDivisionError   (* float division by zero *)
| AttributeError      (* attribute of [None], or attribute not yet set *)
| HALError.           (* a channel reference that names no analog port *)

(** [float(n)] for an [int] n. *)
Definition float_of_int (n : Z) : Q := inject_Z n.

(** [int(x)] for a [float] x: truncation toward zero. *)
Definition int_of_float (x : Q) : Z := Z.quot (Qnum x) (Z.pos (Qden x)).

(** [1 << n] for a bit depth n reported by the channel (never negative). *)
Definition shl1 (n : N) : Z := Z.shiftl 1 (Z.of_N n).

(** A number passed by a caller where the source applies [int(...)] or
    [float(...)] to it. *)
Inductive num : Type :=
| Int (n : Z)
| Float (x : Q).

Definition int (v : num) : Z :=
  match v with
  | Int n => n
  | Float x => int_of_float x
  end.

Definition float (v : num) : Q :=
  match v with
  | Int n => float_of_int n
  | Float x => x
  end.

End Py.

(** ** A state and exception monad

  A method either returns a value or raises; in both cases it leaves a
  state behind, because the mutations made before a [raise] persist. *)

Section Monad.

Context {St : Type}.

Inductive outcome (A : Type) : Type :=
| Ok (a : A) (s : St)
| Raise (e : Py.exn) (s : St).

Definition M (A : Type) : Type := St -> outcome A.

Definition ret {A} (a : A) : M A := fun s => Ok A a s.

Definition bind {A B} (m : M A) (k : A -> M B) : M B :=
  fun s =>
    match m s with
    | Ok _ a s' => k a s'
    | Raise _ e s' => Raise B e s'
    end.

Definition raise {A} (e : Py.exn) : M A := fun s => Raise A e s.

Definition gets {A} (f : St -> A) : M A := fun s => Ok A (f s) s.

Definition modify (f : St -> St) : M unit := fun s => Ok unit tt (f s).

(** The state an outcome leaves behind. *)
Definition final {A} (o : outcome A) : St :=
  match o with
  | Ok _ _ s => s
  | Raise _ _ s => s
  end.

(** Whether an outcome is a normal return. *)
Definition returns {A} (o : outcome A) : bool :=
  match o with
  | Ok _ _ _ => true
  | Raise _ _ _ => false
  end.

End Monad.

Arguments outcome : clear implicits.
Arguments M : clear implicits.
Arguments Ok {St A} a s.
Arguments Raise {St A} e s.

Declare Scope py_scope.
Delimit Scope py_scope with py.

Notation "x <- m ;; k" := (bind m (fun x => k))
  (at level 100, m at next level, right associativity) : py_scope.
Notation "' ( x , y ) <- m ;; k" := (bind m (fun p => let '(x, y) := p in k))
  (at level 100, m at next level, x name, y name, right associativity) : py_scope.
Notation "m ;; k" := (bind m (fun _ => k))
  (at level 100, right associativity) : py_scope.

(** ** The collaborators *)

(** Modelled from the spec: the accumulator channel ([AnalogInput], whose
    code is in [analoginput.py]) as the spec's sections 2 and 6 describe it:
    an analog input that accumulates a (sum, count) pair of samples, with
    an averaging and an oversampling depth, a deadband, a settable
    accumulator centre, a live averaged value and an LSB weight. *)
Record AnalogInput : Type := mkAnalogInput {
  channel : Z;                   (* getChannel() *)
  averageBits : N;               (* getAverageBits() *)
  oversampleBits : N;            (* getOversampleBits() *)
  accumulatorArmed : bool;       (* initAccumulator() was called *)
  accumulatorCenter : Z;
  accumulatorDeadband : Z;
  accumulator : Z * Z;           (* getAccumulatorOutput(): (value, count) *)
  averageValue : Z;              (* getAverageValue() *)
  LSBWeight : Q;                 (* getLSBWeight() *)
  allocated : bool               (* constructed and not yet freed *)
}.

(** The mutating calls a driver makes on a channel, kept as a trace. *)
Inductive ChannelCall : Type :=
| SetAverageBits (bits : N)
| SetOversampleBits (bits : N)
| InitAccumulator
| ResetAccumulator
| SetAccumulatorCenter (c : Z)
| SetAccumulatorDeadband (d : Z)
| Free.

(** Modelled from the spec: everything outside the driver object, whose
    code is outside [analoggyro.py]: the analog ports, the sample rate shared
    by all of them, the HAL's simulation flag, the time spent in
    [Timer.delay], the usage reports and the LiveWindow registry (sections
    4.1, 5 and 6 of the spec). *)
Record World : Type := mkWorld {
  channels : gmap Z AnalogInput;
  globalSampleRate : Q;          (* AnalogInput.getGlobalSampleRate() *)
  simulation : bool;             (* hal.HALIsSimulation() *)
  clock : Q;                     (* seconds spent in Timer.delay *)
  usageReports : list Z;         (* HALReport(kResourceType_Gyro, channel) *)
  liveWindow : gmap nat Z;       (* component identity -> channel *)
  calls : list (Z * ChannelCall) (* newest first *)
}.

Inductive PIDSourceType : Type := kDisplacement | kRate.

(** The driver object.  [analog = None] is Python's [None]; [center] and
    [offset] are [None] while the attribute has not been assigned. *)
Record AnalogGyro : Type := mkAnalogGyro {
  oid : nat;                     (* the identity of the object *)
  analog : option Z;
  channelAllocated : bool;
  voltsPerDegreePerSecond : Q;
  center : option Z;
  offset : option Q;
  pidSource : PIDSourceType
}.

Record State : Type := mkState {
  self : AnalogGyro;
  world : World
}.

(** Field updates, written out. *)

Definition set_channels (f : gmap Z AnalogInput -> gmap Z AnalogInput) (w : World) : World :=
  mkWorld (f (channels w)) (globalSampleRate w) (simulation w) (clock w)
          (usageReports w) (liveWindow w) (calls w).

Definition set_globalSampleRate (r : Q) (w : World) : World :=
  mkWorld (channels w) r (simulation w) (clock w)
          (usageReports w) (liveWindow w) (calls w).

Definition set_clock (f : Q -> Q) (w : World) : World :=
  mkWorld (channels w) (globalSampleRate w) (simulation w) (f (clock w))
          (usageReports w) (liveWindow w) (calls w).

Definition set_usageReports (f : list Z -> list Z) (w : World) : World :=
  mkWorld (channels w) (globalSampleRate w) (simulation w) (clock w)
          (f (usageReports w)) (liveWindow w) (calls w).

Definition set_liveWindow (f : gmap nat Z -> gmap nat Z) (w : World) : World :=
  mkWorld (channels w) (globalSampleRate w) (simulation w) (clock w)
          (usageReports w) (f (liveWindow w)) (calls w).

Definition log_call (r : Z) (c : option ChannelCall) (w : World) : World :=
  match c with
  | Some c =>
      mkWorld (channels w) (globalSampleRate w) (simulation w) (clock w)
              (usageReports w) (liveWindow w) ((r, c) :: calls w)
  | None => w
  end.

Definition set_averageBits (b : N) (a : AnalogInput) : AnalogInput :=
  mkAnalogInput (channel a) b (oversampleBits a) (accumulatorArmed a)
    (accumulatorCenter a) (accumulatorDeadband a) (accumulator a)
    (averageValue a) (LSBWeight a) (allocated a).

Definition set_oversampleBits (b : N) (a : AnalogInput) : AnalogInput :=
  mkAnalogInput (channel a) (averageBits a) b (accumulatorArmed a)
    (accumulatorCenter a) (accumulatorDeadband a) (accumulator a)
    (averageValue a) (LSBWeight a) (allocated a).

Definition set_accumulatorArmed (b : bool) (a : AnalogInput) : AnalogInput :=
  mkAnalogInput (channel a) (averageBits a) (oversampleBits a) b
    (accumulatorCenter a) (accumulatorDeadband a) (accumulator a)
    (averageValue a) (LSBWeight a) (allocated a).

Definition set_accumulatorCenter (c : Z) (a : AnalogInput) : AnalogInput :=
  mkAnalogInput (channel a) (averageBits a) (oversampleBits a) (accumulatorArmed a)
    c (accumulatorDeadband a) (accumulator a)
    (averageValue a) (LSBWeight a) (allocated a).

Definition set_accumulatorDeadband (d : Z) (a : AnalogInput) : AnalogInput :=
  mkAnalogInput (channel a) (averageBits a) (oversampleBits a) (accumulatorArmed a)
    (accumulatorCenter a) d (accumulator a)
    (averageValue a) (LSBWeight a) (allocated a).

Definition set_accumulator (f : Z * Z -> Z * Z) (a : AnalogInput) : AnalogInput :=
  mkAnalogInput (channel a) (averageBits a) (oversampleBits a) (accumulatorArmed a)
    (accumulatorCenter a) (accumulatorDeadband a) (f (accumulator a))
    (averageValue a) (LSBWeight a) (allocated a).

Definition set_allocated (b : bool) (a : AnalogInput) : AnalogInput :=
  mkAnalogInput (channel a) (averageBits a) (oversampleBits a) (accumulatorArmed a)
    (accumulatorCenter a) (accumulatorDeadband a) (accumulator a)
    (averageValue a) (LSBWeight a) b.

Definition set_analog (r : option Z) (g : AnalogGyro) : AnalogGyro :=
  mkAnalogGyro (oid g) r (channelAllocated g) (voltsPerDegreePerSecond g)
    (center g) (offset g) (pidSource g).

Definition set_channelAllocated (b : bool) (g : AnalogGyro) : AnalogGyro :=
  mkAnalogGyro (oid g) (analog g) b (voltsPerDegreePerSecond g)
    (center g) (offset g) (pidSource g).

Definition set_voltsPerDegreePerSecond (v : Q) (g : AnalogGyro) : AnalogGyro :=
  mkAnalogGyro (oid g) (analog g) (channelAllocated g) v
    (center g) (offset g) (pidSource g).

Definition set_center (c : Z) (g : AnalogGyro) : AnalogGyro :=
  mkAnalogGyro (oid g) (analog g) (channelAllocated g) (voltsPerDegreePerSecond g)
    (Some c) (offset g) (pidSource g).

Definition set_offset (o : Q) (g : AnalogGyro) : AnalogGyro :=
  mkAnalogGyro (oid g) (analog g) (channelAllocated g) (voltsPerDegreePerSecond g)
    (center g) (Some o) (pidSource g).

Definition set_pidSource (p : PIDSourceType) (g : AnalogGyro) : AnalogGyro :=
  mkAnalogGyro (oid g) (analog g) (channelAllocated g) (voltsPerDegreePerSecond g)
    (center g) (offset g) p.

Definition on_self (f : AnalogGyro -> AnalogGyro) (s : State) : State :=
  mkState (f (self s)) (world s).

Definition on_world (f : World -> World) (s : State) : State :=
  mkState (self s) (f (world s)).

Local Open Scope py_scope.

(** *** Python arithmetic inside the monad *)

(** [x / y] on floats: raises on a zero divisor. *)
Definition truediv (x y : Q) : M State Q :=
  if Qeq_bool y 0 then raise Py.ZeroDivisionError else ret (x / y)%Q.

(** Reading an attribute of [self] that may not have been assigned yet. *)
Definition attr {A} (f : AnalogGyro -> option A) : M State A :=
  fun s =>
    match f (self s) with
    | Some a => Ok a s
    | None => Raise Py.AttributeError s
    end.

(** [self.analog.m(...)]: the receiver of a method call must not be [None]. *)
Definition self_analog : M State Z := attr analog.

(** [self.center] and [self.offset]. *)
Definition self_center : M State Z := attr center.
Definition self_offset : M State Q := attr offset.

(** *** Channel calls *)

(** Modelled from the spec: the reading operations of the accumulator channel
    listed in the spec's section 6 ([AnalogInput]'s getters).  A call on a
    reference that names no port raises. *)
Definition chan_read {A} (r : Z) (f : AnalogInput -> A) : M State A :=
  fun s =>
    match channels (world s) !! r with
    | Some a => Ok (f a) s
    | None => Raise Py.HALError s
    end.

(** Modelled from the spec: the mutating operations of the accumulator
    channel listed in the spec's section 6 ([AnalogInput]'s setters,
    [initAccumulator], [resetAccumulator] and [free]): the call updates the
    port in the store and is logged. *)
Definition chan_update (r : Z) (c : option ChannelCall)
    (f : AnalogInput -> AnalogInput) : M State unit :=
  fun s =>
    match channels (world s) !! r with
    | Some a =>
        Ok tt (on_world (fun w => log_call r c (set_channels (insert r (f a)) w)) s)
    | None => Raise Py.HALError s
    end.

(** Modelled from the spec: [AnalogInput(n)], the allocation of a channel
    on port [n] (section 4.1); the new object is the reference [n]. *)
Definition AnalogInput_new (n : Z) : M State Z :=
  chan_update n None (set_allocated true) ;; ret n.

Definition getChannel (r : Z) : M State Z := chan_read r channel.
Definition getAverageBits (r : Z) : M State N := chan_read r averageBits.
Definition getOversampleBits (r : Z) : M State N := chan_read r oversampleBits.
Definition getLSBWeight (r : Z) : M State Q := chan_read r LSBWeight.
Definition getAverageValue (r : Z) : M State Z := chan_read r averageValue.
Definition getAccumulatorOutput (r : Z) : M State (Z * Z) := chan_read r accumulator.

Definition setAverageBits (r : Z) (bits : N) : M State unit :=
  chan_update r (Some (SetAverageBits bits)) (set_averageBits bits).

Definition setOversampleBits (r : Z) (bits : N) : M State unit :=
  chan_update r (Some (SetOversampleBits bits)) (set_oversampleBits bits).

Definition initAccumulator (r : Z) : M State unit :=
  chan_update r (Some InitAccumulator) (set_accumulatorArmed true).

Definition resetAccumulator (r : Z) : M State unit :=
  chan_update r (Some ResetAccumulator) (set_accumulator (fun _ => (0, 0))).

Definition setAccumulatorCenter (r : Z) (c : Z) : M State unit :=
  chan_update r (Some (SetAccumulatorCenter c)) (set_accumulatorCenter c).

Definition setAccumulatorDeadband (r : Z) (d : Z) : M State unit :=
  chan_update r (Some (SetAccumulatorDeadband d)) (set_accumulatorDeadband d).

Definition chan_free (r : Z) : M State unit :=
  chan_update r (Some Free) (set_allocated false).

(** The hardware (or the simulator) adding samples to the accumulator of a
    port: [samples] is the (sum, count) gathered since the last read.  This
    is the environment acting, not a call of the driver. *)
Definition hw_accumulate (r : Z) (samples : Z * Z) : M State unit :=
  chan_update r None
    (set_accumulator (fun acc => (fst acc + fst samples, snd acc + snd samples))).

(** Modelled from the spec: the process-wide sample rate (section 5). *)
Definition setGlobalSampleRate (rate : Q) : M State unit :=
  modify (on_world (set_globalSampleRate rate)).

Definition getGlobalSampleRate : M State Q :=
  gets (fun s => globalSampleRate (world s)).

(** Modelled from the spec: the simulation flag of the HAL and the blocking
    delay of the timer (section 4.1). *)
Definition HALIsSimulation : M State bool :=
  gets (fun s => simulation (world s)).

Definition Timer_delay (seconds : Q) : M State unit :=
  modify (on_world (set_clock (fun t => (t + seconds)%Q))).

(** Modelled from the spec: the usage report and the monitoring registry,
    keyed by the identity of the component (sections 4.1 and 6). *)
Definition HALReport_Gyro (chan : Z) : M State unit :=
  modify (on_world (set_usageReports (cons chan))).

Definition LiveWindow_addSensorChannel (chan : Z) : M State unit :=
  modify (fun s => on_world (set_liveWindow (insert (oid (self s)) chan)) s).

Definition LiveWindow_removeComponent : M State unit :=
  modify (fun s => on_world (set_liveWindow (delete (oid (self s)))) s).

(** Modelled from the spec: [setPIDSourceType] is inherited from [GyroBase],
    whose code is outside [analoggyro.py] and which the spec does not
    describe; it is taken to store the flag. *)
Definition setPIDSourceType (p : PIDSourceType) : M State unit :=
  modify (on_self (set_pidSource p)).

(** ** The driver: [class AnalogGyro] *)

Definition kOversampleBits : N := 10.
Definition kAverageBits : N := 0.
Definition kSamplesPerSecond : Q := 50.0.
Definition kCalibrationSampleTime : Q := 5.0.
Definition kDefaultVoltsPerDegreePerSecond : Q := 0.007.

(** The first argument of the constructor: a channel index, or a channel
    object ([hasattr(channel, "initAccumulator")]). *)
Inductive ChannelArg : Type :=
| Index (n : Z)
| Object (r : Z).

(** [AnalogGyro.setSensitivity] *)
Definition setSensitivity (voltsPerDegreePerSecond : Q) : M State unit :=
  modify (on_self (set_voltsPerDegreePerSecond voltsPerDegreePerSecond)).

(** [AnalogGyro.setDeadband].  The product under [int(...)] is the exact
    one here; the program truncates the binary64 product
    ([Binary64.setDeadband]). *)
Definition setDeadband (volts : Q) : M State unit :=
  a <- gets (fun s => analog (self s)) ;;
  match a with
  | None => ret tt
  | Some _ =>
      r <- self_analog ;;
      lsb <- getLSBWeight r ;;
      q <- truediv (volts * 1e9)%Q lsb ;;
      r <- self_analog ;;
      bits <- getOversampleBits r ;;
      let deadband := Py.int_of_float (q * Py.float_of_int (Py.shl1 bits))%Q in
      r <- self_analog ;;
      setAccumulatorDeadband r deadband
  end.

(** [AnalogGyro.calibrate].  [samples] is what the accumulator gathers
    between the reset at the start and the read of the output. *)
Definition calibrate (samples : Z * Z) : M State unit :=
  r <- self_analog ;;
  initAccumulator r ;;
  r <- self_analog ;;
  resetAccumulator r ;;
  sim <- HALIsSimulation ;;
  (if negb sim then Timer_delay kCalibrationSampleTime else ret tt) ;;
  hw_accumulate r samples ;;
  r <- self_analog ;;
  '(value, count) <- getAccumulatorOutput r ;;
  q <- truediv (Py.float_of_int value) (Py.float_of_int count) ;;
  modify (on_self (set_center (Py.int_of_float (q + 0.5)%Q))) ;;
  q <- truediv (Py.float_of_int value) (Py.float_of_int count) ;;
  c <- self_center ;;
  modify (on_self (set_offset (q - Py.float_of_int c)%Q)) ;;
  r <- self_analog ;;
  c <- self_center ;;
  setAccumulatorCenter r c ;;
  r <- self_analog ;;
  resetAccumulator r.

(** [AnalogGyro.__init__], run on a fresh object. *)
Definition __init__ (chan : ChannelArg) (center offset : option Py.num)
    (samples : Z * Z) : M State unit :=
  r <- match chan with
       | Index n =>
           r <- AnalogInput_new n ;;
           modify (on_self (set_channelAllocated true)) ;;
           ret r
       | Object r =>
           modify (on_self (set_channelAllocated false)) ;;
           ret r
       end ;;
  modify (on_self (set_analog (Some r))) ;;
  modify (on_self (set_voltsPerDegreePerSecond kDefaultVoltsPerDegreePerSecond)) ;;
  r <- self_analog ;;
  setAverageBits r kAverageBits ;;
  r <- self_analog ;;
  setOversampleBits r kOversampleBits ;;
  let sampleRate :=
    (kSamplesPerSecond
     * Py.float_of_int (Py.shl1 (kAverageBits + kOversampleBits)))%Q in
  setGlobalSampleRate sampleRate ;;
  sim <- HALIsSimulation ;;
  (if negb sim then Timer_delay 1.0 else ret tt) ;;
  setDeadband 0.0 ;;
  setPIDSourceType kDisplacement ;;
  r <- self_analog ;;
  n <- getChannel r ;;
  HALReport_Gyro n ;;
  r <- self_analog ;;
  n <- getChannel r ;;
  LiveWindow_addSensorChannel n ;;
  match center, offset with
  | Some center, Some offset =>
      modify (on_self (set_center (Py.int center))) ;;
      modify (on_self (set_offset (Py.float offset))) ;;
      r <- self_analog ;;
      c <- self_center ;;
      setAccumulatorCenter r c ;;
      r <- self_analog ;;
      resetAccumulator r
  | _, _ => calibrate samples
  end.

(** [AnalogGyro.reset] *)
Definition reset : M State unit :=
  a <- gets (fun s => analog (self s)) ;;
  match a with
  | Some r => resetAccumulator r
  | None => ret tt
  end.

(** [AnalogGyro.free] *)
Definition free : M State unit :=
  LiveWindow_removeComponent ;;
  a <- gets (fun s => analog (self s)) ;;
  alloc <- gets (fun s => channelAllocated (self s)) ;;
  match a with
  | Some r =>
      if alloc then
        chan_free r ;;
        modify (on_self (set_analog None))
      else ret tt
  | None => ret tt
  end.

(** [AnalogGyro.getAngle] *)
Definition getAngle : M State Q :=
  a <- gets (fun s => analog (self s)) ;;
  match a with
  | None => ret 0.0%Q
  | Some r =>
      '(value, count) <- getAccumulatorOutput r ;;
      off <- self_offset ;;
      let value := (Py.float_of_int value - Py.float_of_int count * off)%Q in
      lsb <- getLSBWeight r ;;
      bits <- getAverageBits r ;;
      rate <- getGlobalSampleRate ;;
      volts <- gets (fun s => voltsPerDegreePerSecond (self s)) ;;
      truediv (value * 1e-9 * lsb * Py.float_of_int (Py.shl1 bits))%Q
              (rate * volts)%Q
  end.

(** [AnalogGyro.getRate] *)
Definition getRate : M State Q :=
  a <- gets (fun s => analog (self s)) ;;
  match a with
  | None => ret 0.0%Q
  | Some r =>
      avg <- getAverageValue r ;;
      c <- self_center ;;
      off <- self_offset ;;
      lsb <- getLSBWeight r ;;
      bits <- getOversampleBits r ;;
      volts <- gets (fun s => voltsPerDegreePerSecond (self s)) ;;
      truediv ((Py.float_of_int avg - (Py.float_of_int c + off)) * 1e-9 * lsb)%Q
              (Py.float_of_int (Py.shl1 bits) * volts)%Q
  end.

(** [AnalogGyro.getOffset] and [AnalogGyro.getCenter] *)
Definition getOffset : M State Q := self_offset.
Definition getCenter : M State Z := self_center.

(** ** A test bench

    Concrete states on which the statements below are evaluated: analog
    port 0 with the LSB weight of the spec's example, in simulation. *)

Definition port0 : AnalogInput :=
  mkAnalogInput 0 0 0 false 0 0 (0, 0) 2048 7.6295e-6 false.

Definition bench : World :=
  mkWorld (<[0 := port0]> ∅) 0 true 0 [] ∅ [].

(** An object on which [__init__] has not run yet. *)
Definition blank (id : nat) : AnalogGyro :=
  mkAnalogGyro id None false 0 None None kRate.

Definition boot : State := mkState (blank 1) bench.

(** [AnalogGyro(0)] with the accumulator holding (500000000, 1000) after
    the calibration window: the driver owns its channel. *)
Definition calibrated_gyro : State :=
  final (__init__ (Index 0) None None (500000000, 1000) boot).

(** [AnalogGyro(ai, center=1000, offset=0.25)] on a channel object [ai]
    made by the caller: the driver borrows the channel. *)
Definition preset_gyro : State :=
  final (__init__ (Object 0) (Some (Py.Int 1000)) (Some (Py.Float 0.25)) (0, 0) boot).

(** The same two drivers after the accumulator gathered (505000000, 1010). *)
Definition turning_gyro : State :=
  final (hw_accumulate 0 (505000000, 1010) calibrated_gyro).

Definition turning_preset_gyro : State :=
  final (hw_accumulate 0 (505000000, 1010) preset_gyro).

(** Port 0 as these four states hold it. *)
Definition calibrated_port : AnalogInput :=
  mkAnalogInput 0 0 10 true 500000 0 (0, 0) 2048 7.6295e-6 true.

Definition preset_port : AnalogInput :=
  mkAnalogInput 0 0 10 false 1000 0 (0, 0) 2048 7.6295e-6 false.

Definition turning_port : AnalogInput :=
  mkAnalogInput 0 0 10 true 500000 0 (505000000, 1010) 2048 7.6295e-6 true.

Definition turning_preset_port : AnalogInput :=
  mkAnalogInput 0 0 10 false 1000 0 (505000000, 1010) 2048 7.6295e-6 false.

(** A driver whose channel reference, when it has one, names a port. *)
Definition attached (s : State) : bool :=
  match analog (self s) with
  | Some r =>
      match channels (world s) !! r with
      | Some _ => true
      | None => false
      end
  | None => true
  end.

(** The channel reference that the constructor's first argument becomes. *)
Definition channel_ref (chan : ChannelArg) : Z :=
  match chan with
  | Index n => n
  | Object r => r
  end.

(** Whether the constructor allocates the channel itself. *)
Definition owns (chan : ChannelArg) : bool :=
  match chan with
  | Index _ => true
  | Object _ => false
  end.

(** The port as the constructor finds it: claimed by [AnalogInput(n)] when
    the driver allocates it, as the caller left it otherwise. *)
Definition claimed (chan : ChannelArg) (a : AnalogInput) : AnalogInput :=
  if owns chan then set_allocated true a else a.

(** The port once the constructor has set the bit depths and the deadband. *)
Definition configured (a : AnalogInput) : AnalogInput :=
  set_accumulatorDeadband 0
    (set_oversampleBits kOversampleBits (set_averageBits kAverageBits a)).

(** ** Descriptions of states, for the statements below *)

(** On a driver that is not released, the accumulator center of the channel
    is the center the driver stores. *)
Definition centered (s : State) : bool :=
  match analog (self s) with
  | None => true
  | Some r =>
      match channels (world s) !! r, center (self s) with
      | Some a, Some c => accumulatorCenter a =? c
      | _, _ => false
      end
  end.

(** The state in which the constructor reaches its last statement (the
    choice between the presets and [calibrate]), when it found the port [a]
    behind its first argument. *)
Definition after_setup (chan : ChannelArg) (a : AnalogInput) (s : State) : State :=
  mkState
    (mkAnalogGyro (oid (self s)) (Some (channel_ref chan)) (owns chan)
       kDefaultVoltsPerDegreePerSecond (center (self s)) (offset (self s))
       kDisplacement)
    (mkWorld
       (<[channel_ref chan := configured (claimed chan a)]> (channels (world s)))
       (kSamplesPerSecond
        * Py.float_of_int (Py.shl1 (kAverageBits + kOversampleBits)))%Q
       (simulation (world s))
       (if simulation (world s) then clock (world s)
        else (clock (world s) + 1.0)%Q)
       (channel a :: usageReports (world s))
       (<[oid (self s) := channel a]> (liveWindow (world s)))
       ([(channel_ref chan, SetAccumulatorDeadband 0);
         (channel_ref chan, SetOversampleBits kOversampleBits);
         (channel_ref chan, SetAverageBits kAverageBits)] ++ calls (world s))).

(** The same state once the presets are adopted. *)
Definition adopted (chan : ChannelArg) (a : AnalogInput) (c : Z) (off : Q)
    (s : State) : State :=
  let s1 := after_setup chan a s in
  mkState
    (set_offset off (set_center c (self s1)))
    (mkWorld
       (<[channel_ref chan :=
            set_accumulator (fun _ => (0, 0))
              (set_accumulatorCenter c (configured (claimed chan a)))]>
          (channels (world s)))
       (globalSampleRate (world s1)) (simulation (world s1)) (clock (world s1))
       (usageReports (world s1)) (liveWindow (world s1))
       ([(channel_ref chan, ResetAccumulator);
         (channel_ref chan, SetAccumulatorCenter c)] ++ calls (world s1))).

(** A state with the accumulator of port [r] set to [acc]. *)
Definition with_accumulator (r : Z) (a : AnalogInput) (acc : Z * Z)
    (s : State) : State :=
  on_world (set_channels (insert r (set_accumulator (fun _ => acc) a))) s.

(** A port whose LSB weight is zero, and a driver attached to it. *)
Definition dead_port : AnalogInput :=
  mkAnalogInput 1 0 10 false 0 0 (0, 0) 2048 0 false.

Definition dead_gyro : State :=
  mkState
    (mkAnalogGyro 2 (Some 1) false 0.007 (Some 0) (Some 0%Q) kDisplacement)
    (mkWorld (<[1 := dead_port]> ∅) 51200 true 0 [] ∅ []).

(** The bench on real hardware: [Timer.delay] is not skipped. *)
Definition robot : State :=
  mkState (blank 1) (mkWorld (<[0 := port0]> ∅) 0 false 0 [] ∅ []).

(** [AnalogGyro(0)] on real hardware, calibrated on (500000000, 1000). *)
Definition robot_gyro : State :=
  final (__init__ (Index 0) None None (500000000, 1000) robot).

(** The state [calibrate] leaves on a driver attached to port [a] under the
    reference [r], for a snapshot with a non-zero count. *)
Definition calibrated (r : Z) (a : AnalogInput) (value count : Z)
    (s : State) : State :=
  let q := (Py.float_of_int value / Py.float_of_int count)%Q in
  let ctr := Py.int_of_float (q + 0.5)%Q in
  mkState
    (set_offset (q - Py.float_of_int ctr)%Q (set_center ctr (self s)))
    (mkWorld
       (<[r := set_accumulator (fun _ => (0, 0))
                 (set_accumulatorCenter ctr (set_accumulatorArmed true a))]>
          (channels (world s)))
       (globalSampleRate (world s)) (simulation (world s))
       (if simulation (world s) then clock (world s)
        else (clock (world s) + kCalibrationSampleTime)%Q)
       (usageReports (world s)) (liveWindow (world s))
       ([(r, ResetAccumulator); (r, SetAccumulatorCenter ctr);
         (r, ResetAccumulator); (r, InitAccumulator)] ++ calls (world s))).

(** The preset driver (offset 0.25) after 1000 samples summing to 250. *)
Definition resting_port : AnalogInput :=
  mkAnalogInput 0 0 10 false 1000 0 (250, 1000) 2048 7.6295e-6 false.

Definition resting_gyro : State :=
  with_accumulator 0 preset_port (250, 1000) preset_gyro.

(** ** The arithmetic on binary64

    The same expressions on the numbers the interpreter computes with,
    for evaluating concrete inputs. *)

Set Warnings "-inexact-float".

Module Binary64.

(** [float(n)]: the nearest binary64 number, ties to even. *)
Definition float_of_int (n : Z) : float :=
  SF2Prim (binary_normalize prec emax n 0 false).

(** [int(x)]: truncation toward zero; [None] where Python raises
    (infinities and NaN). *)
Definition int_of_float (x : float) : option Z :=
  match Prim2SF x with
  | S754_zero _ => Some 0
  | S754_finite sign m e =>
      let magnitude :=
        if 0 <=? e then Z.pos m * 2 ^ e else Z.pos m / 2 ^ (- e) in
      Some (if sign then - magnitude else magnitude)
  | S754_infinity _ | S754_nan => None
  end.

(** [x / y]: [None] where Python raises [ZeroDivisionError]. *)
Definition truediv (x y : float) : option float :=
  if (y =? 0)%float then None else Some (x / y)%float.

(** The center and the offset that [calibrate] stores for a snapshot. *)
Definition calibrate (value count : Z) : option (Z * float) :=
  match truediv (float_of_int value) (float_of_int count) with
  | None => None
  | Some q =>
      match int_of_float (q + 0.5)%float with
      | None => None
      | Some center => Some (center, (q - float_of_int center)%float)
      end
  end.

(** The value [getAngle] returns on a driver that is not released. *)
Definition getAngle (value count : Z) (offset lsb : float) (averageBits : N)
    (rate volts : float) : option float :=
  let value := (float_of_int value - float_of_int count * offset)%float in
  truediv (value * 1e-9 * lsb * float_of_int (Py.shl1 averageBits))%float
          (rate * volts)%float.

(** The value [getRate] returns on a driver that is not released. *)
Definition getRate (averageValue center : Z) (offset lsb : float)
    (oversampleBits : N) (volts : float) : option float :=
  truediv ((float_of_int averageValue - (float_of_int center + offset))
           * 1e-9 * lsb)%float
          (float_of_int (Py.shl1 oversampleBits) * volts)%float.

(** The deadband [setDeadband] pushes on a driver that is not released. *)
Definition setDeadband (volts lsb : float) (oversampleBits : N) : option Z :=
  match truediv (volts * 1e9)%float lsb with
  | None => None
  | Some q => int_of_float (q * float_of_int (Py.shl1 oversampleBits))%float
  end.

End Binary64.

(** ** Proof infrastructure *)

Ltac unfold_methods :=
  unfold calibrate, reset, free, getAngle, getRate, setDeadband, setSensitivity,
    getOffset, getCenter.

Ltac unfold_prims :=
  unfold self_analog, self_center, self_offset, attr,
    getChannel, getAverageBits, getOversampleBits, getLSBWeight, getAverageValue,
    getAccumulatorOutput, setAverageBits, setOversampleBits, initAccumulator,
    resetAccumulator, setAccumulatorCenter, setAccumulatorDeadband, chan_free,
    hw_accumulate, AnalogInput_new, setGlobalSampleRate, getGlobalSampleRate,
    HALIsSimulation, Timer_delay, HALReport_Gyro, LiveWindow_addSensorChannel,
    LiveWindow_removeComponent, setPIDSourceType,
    chan_read, chan_update, truediv, bind, ret, raise, gets, modify.

Ltac record_simpl :=
  cbn [self world on_self on_world
       channels globalSampleRate simulation clock usageReports liveWindow calls
       set_channels set_globalSampleRate set_clock set_usageReports set_liveWindow
       log_call
       channel averageBits oversampleBits accumulatorArmed accumulatorCenter
       accumulatorDeadband accumulator averageValue LSBWeight allocated
       set_averageBits set_oversampleBits set_accumulatorArmed set_accumulatorCenter
       set_accumulatorDeadband set_accumulator set_allocated
       oid analog channelAllocated voltsPerDegreePerSecond center offset pidSource
       set_analog set_channelAllocated set_voltsPerDegreePerSecond set_center
       set_offset set_pidSource fst snd negb final returns].

Ltac use_facts :=
  repeat match goal with
  | H : analog (self _) = _ |- _ => rewrite H
  | H : center (self _) = _ |- _ => rewrite H
  | H : offset (self _) = _ |- _ => rewrite H
  | H : channelAllocated (self _) = _ |- _ => rewrite H
  | H : simulation (world _) = _ |- _ => rewrite H
  | H : channels (world _) !! _ = _ |- _ => rewrite H
  | H : accumulator _ = _ |- _ => rewrite H
  | H : Qeq_bool _ _ = _ |- _ => rewrite H
  end.

(** Symbolic execution on a state described by equations in the context:
    [exec] steps through the collaborators' calls, [run] through the body
    of a method first. *)
Ltac exec :=
  unfold_prims;
  repeat progress
    (record_simpl; use_facts;
     rewrite ?lookup_insert_eq, ?insert_insert_eq, ?Z.add_0_l).

Ltac run := unfold_methods; exec.

(** The cases of the constructor: simulated or not, channel index or object. *)
Ltac init_cases s chan :=
  destruct (simulation (world s)) eqn:?Hsim;
  destruct chan as [?n|?r];
  cbn [channel_ref owns claimed] in *;
  unfold __init__, setDeadband; exec.

(** An inequality between integers, read in Q. *)
Ltac from_Z :=
  change 2%Q with (inject_Z 2); change 0%Q with (inject_Z 0);
  repeat (rewrite <- inject_Z_mult || rewrite <- inject_Z_plus);
  (rewrite <- Zlt_Qlt || rewrite <- Zle_Qle); lia.

(** *** Arithmetic *)

Lemma Qeq_bool_nonzero (x : Q) : ~ (x == 0)%Q -> Qeq_bool x 0 = false.
Proof.
  intros H. destruct (Qeq_bool x 0) eqn:E; [|reflexivity].
  apply Qeq_bool_eq in E. contradiction.
Qed.

Lemma float_of_int_nonzero (n : Z) : n <> 0 -> ~ (Py.float_of_int n == 0)%Q.
Proof.
  intros H E. unfold Py.float_of_int, inject_Z, Qeq in E. cbn in E. lia.
Qed.

(** [int(x)] depends on the value of the fraction, not on how it is written. *)
Lemma int_of_float_Qeq (x y : Q) :
  (x == y)%Q -> Py.int_of_float x = Py.int_of_float y.
Proof.
  destruct x as [a b], y as [c d]. unfold Qeq, Py.int_of_float. cbn [Qnum Qden].
  intros H.
  rewrite <- (Z.quot_mul_cancel_r a (Z.pos b) (Z.pos d)) by lia.
  rewrite H, (Z.mul_comm (Z.pos b)).
  rewrite Z.quot_mul_cancel_r by lia. reflexivity.
Qed.

(** value/count + 0.5, as one fraction. *)
Lemma mean_plus_half (v c : Z) :
  0 < c ->
  (Py.float_of_int v / Py.float_of_int c + 0.5
   == Qmake (2 * v + c) (Z.to_pos (2 * c)))%Q.
Proof.
  intros Hc. destruct c as [|p|p]; try lia.
  unfold Py.float_of_int, Qeq, Qdiv, Qmult, Qplus, Qinv, inject_Z. cbn [Qnum Qden].
  rewrite ?Z2Pos.id by lia. lia.
Qed.

Lemma int_of_mean_plus_half (v c : Z) :
  0 < c ->
  Py.int_of_float (Py.float_of_int v / Py.float_of_int c + 0.5)
  = (2 * v + c) ÷ (2 * c).
Proof.
  intros Hc. rewrite (int_of_float_Qeq _ _ (mean_plus_half v c Hc)).
  unfold Py.int_of_float. cbn [Qnum Qden]. rewrite Z2Pos.id by lia. reflexivity.
Qed.

Lemma shl1_pow (n : N) : Py.shl1 n = 2 ^ Z.of_N n.
Proof. unfold Py.shl1. rewrite Z.shiftl_1_l. reflexivity. Qed.

Lemma shl1_pos (n : N) : 0 < Py.shl1 n.
Proof. rewrite shl1_pow. apply Z.pow_pos_nonneg; lia. Qed.

(** *** The methods on a driver attached to a channel *)

Section Attached.

Variables (s : State) (r : Z) (a : AnalogInput).
Hypothesis Hanalog : analog (self s) = Some r.
Hypothesis Hchannel : channels (world s) !! r = Some a.

(** [calibrate] on a snapshot with a non-zero count. *)
Lemma calibrate_ok (v c : Z) :
  c <> 0 ->
  let q := (Py.float_of_int v / Py.float_of_int c)%Q in
  let ctr := Py.int_of_float (q + 0.5)%Q in
  exists s',
    calibrate (v, c) s = Ok tt s'
    /\ self s' = set_offset (q - Py.float_of_int ctr)%Q (set_center ctr (self s))
    /\ channels (world s')
       = <[r := set_accumulator (fun _ => (0, 0))
                 (set_accumulatorCenter ctr (set_accumulatorArmed true a))]>
           (channels (world s))
    /\ calls (world s')
       = [(r, ResetAccumulator); (r, SetAccumulatorCenter ctr);
          (r, ResetAccumulator); (r, InitAccumulator)] ++ calls (world s)
    /\ globalSampleRate (world s') = globalSampleRate (world s)
    /\ liveWindow (world s') = liveWindow (world s).
Proof.
  intros Hc q ctr.
  pose proof (Qeq_bool_nonzero _ (float_of_int_nonzero c Hc)) as Hz.
  destruct (simulation (world s)) eqn:Hsim; run;
    (eexists; split; [reflexivity|]); record_simpl; repeat split;
    rewrite !insert_insert_eq; reflexivity.
Qed.

(** [calibrate] on a snapshot with no sample: the first division raises,
    before any attribute of the driver is assigned. *)
Lemma calibrate_no_sample (v : Z) :
  exists s',
    calibrate (v, 0) s = Raise Py.ZeroDivisionError s'
    /\ self s' = self s
    /\ channels (world s')
       = <[r := set_accumulator (fun _ => (v, 0)) (set_accumulatorArmed true a)]>
           (channels (world s))
    /\ calls (world s')
       = [(r, ResetAccumulator); (r, InitAccumulator)] ++ calls (world s).
Proof.
  destruct (simulation (world s)) eqn:Hsim; run;
    (eexists; split; [reflexivity|]); record_simpl; repeat split;
    rewrite !insert_insert_eq; reflexivity.
Qed.

(** [getAngle] on a calibrated driver. *)
Lemma getAngle_ok (off : Q) :
  offset (self s) = Some off ->
  ~ (globalSampleRate (world s) * voltsPerDegreePerSecond (self s) == 0)%Q ->
  getAngle s
  = Ok ((Py.float_of_int (fst (accumulator a))
         - Py.float_of_int (snd (accumulator a)) * off)
        * 1e-9 * LSBWeight a * Py.float_of_int (Py.shl1 (averageBits a))
        / (globalSampleRate (world s) * voltsPerDegreePerSecond (self s)))%Q s.
Proof.
  intros Hoff Hden. apply Qeq_bool_nonzero in Hden.
  destruct (accumulator a) as [value count] eqn:Hacc.
  run. reflexivity.
Qed.

(** [getAngle] when the product in the divisor is zero. *)
Lemma getAngle_zero_divisor (off : Q) :
  offset (self s) = Some off ->
  (globalSampleRate (world s) * voltsPerDegreePerSecond (self s) == 0)%Q ->
  getAngle s = Raise Py.ZeroDivisionError s.
Proof.
  intros Hoff Hden. apply Qeq_eq_bool in Hden.
  destruct (accumulator a) as [value count] eqn:Hacc.
  run. reflexivity.
Qed.

(** [getRate] on a calibrated driver. *)
Lemma getRate_ok (c : Z) (off : Q) :
  center (self s) = Some c ->
  offset (self s) = Some off ->
  ~ (voltsPerDegreePerSecond (self s) == 0)%Q ->
  getRate s
  = Ok ((Py.float_of_int (averageValue a) - (Py.float_of_int c + off))
        * 1e-9 * LSBWeight a
        / (Py.float_of_int (Py.shl1 (oversampleBits a))
           * voltsPerDegreePerSecond (self s)))%Q s.
Proof.
  intros Hc Hoff Hv.
  assert (Hden : Qeq_bool (Py.float_of_int (Py.shl1 (oversampleBits a))
                           * voltsPerDegreePerSecond (self s)) 0 = false).
  { apply Qeq_bool_nonzero. intros E.
    apply Qmult_integral in E. destruct E as [E|E]; [|contradiction].
    pose proof (shl1_pos (oversampleBits a)).
    apply (float_of_int_nonzero (Py.shl1 (oversampleBits a))); [lia | exact E]. }
  run. reflexivity.
Qed.

(** [reset] clears the accumulator of the channel and nothing else. *)
Lemma reset_ok :
  reset s
  = Ok tt (on_world (fun w =>
             log_call r (Some ResetAccumulator)
               (set_channels (insert r (set_accumulator (fun _ => (0, 0)) a)) w)) s).
Proof. run. reflexivity. Qed.

End Attached.

(** *** The methods on a released driver *)

Lemma getAngle_released (s : State) :
  analog (self s) = None -> getAngle s = Ok 0.0%Q s.
Proof. intros H. run. reflexivity. Qed.

Lemma getRate_released (s : State) :
  analog (self s) = None -> getRate s = Ok 0.0%Q s.
Proof. intros H. run. reflexivity. Qed.

Lemma reset_released (s : State) :
  analog (self s) = None -> reset s = Ok tt s.
Proof. intros H. run. reflexivity. Qed.

(** *** [free] *)

Lemma free_owned (s : State) (r : Z) (a : AnalogInput) :
  analog (self s) = Some r ->
  channels (world s) !! r = Some a ->
  channelAllocated (self s) = true ->
  exists s',
    free s = Ok tt s'
    /\ analog (self s') = None
    /\ channelAllocated (self s') = true
    /\ oid (self s') = oid (self s).
Proof.
  intros Hr Ha Hown. run.
  eexists; split; [reflexivity|]. record_simpl. rewrite Hown. repeat split.
Qed.

Lemma free_borrowed (s : State) :
  channelAllocated (self s) = false ->
  free s = Ok tt (on_world (set_liveWindow (delete (oid (self s)))) s).
Proof.
  intros Hown. run. destruct (analog (self s)); reflexivity.
Qed.

Lemma free_released (s : State) :
  analog (self s) = None ->
  free s = Ok tt (on_world (set_liveWindow (delete (oid (self s)))) s).
Proof. intros Hr. run. reflexivity. Qed.

(** *** [__init__] *)

Lemma int_of_float_zero (x : Q) : (x == 0)%Q -> Py.int_of_float x = 0.
Proof. intros H. rewrite (int_of_float_Qeq _ _ H). reflexivity. Qed.

(** [setDeadband(0.0)] pushes a deadband of 0, whatever the LSB weight. *)
Lemma deadband_zero (lsb : Q) (k : Z) :
  Py.int_of_float (0.0 * 1e9 / lsb * Py.float_of_int k)%Q = 0.
Proof.
  apply int_of_float_zero. unfold Qdiv.
  assert (0.0 == 0)%Q as -> by reflexivity. ring.
Qed.

(** With both presets the constructor adopts them. *)
Lemma init_presets chan pc po smp s a :
  channels (world s) !! channel_ref chan = Some a ->
  ~ (LSBWeight a == 0)%Q ->
  exists s',
    __init__ chan (Some pc) (Some po) smp s = Ok tt s'
    /\ center (self s') = Some (Py.int pc)
    /\ offset (self s') = Some (Py.float po)
    /\ analog (self s') = Some (channel_ref chan)
    /\ channelAllocated (self s') = owns chan
    /\ voltsPerDegreePerSecond (self s') = kDefaultVoltsPerDegreePerSecond
    /\ channels (world s') !! channel_ref chan
       = Some (set_accumulator (fun _ => (0, 0))
                 (set_accumulatorCenter (Py.int pc) (configured (claimed chan a))))
    /\ calls (world s')
       = [(channel_ref chan, ResetAccumulator);
          (channel_ref chan, SetAccumulatorCenter (Py.int pc));
          (channel_ref chan, SetAccumulatorDeadband 0);
          (channel_ref chan, SetOversampleBits kOversampleBits);
          (channel_ref chan, SetAverageBits kAverageBits)] ++ calls (world s).
Proof.
  intros Ha Hlsb. apply Qeq_bool_nonzero in Hlsb.
  init_cases s chan;
    (eexists; split; [reflexivity|]); record_simpl;
    rewrite ?lookup_insert_eq, ?deadband_zero; repeat split.
Qed.

(** With a preset missing the constructor ends in [calibrate], run on a
    driver attached to the configured channel. *)
Lemma init_calibrates chan c o smp s a :
  channels (world s) !! channel_ref chan = Some a ->
  ~ (LSBWeight a == 0)%Q ->
  c = None \/ o = None ->
  exists s1,
    __init__ chan c o smp s = calibrate smp s1
    /\ analog (self s1) = Some (channel_ref chan)
    /\ channels (world s1) !! channel_ref chan = Some (configured (claimed chan a))
    /\ center (self s1) = center (self s)
    /\ offset (self s1) = offset (self s)
    /\ calls (world s1)
       = [(channel_ref chan, SetAccumulatorDeadband 0);
          (channel_ref chan, SetOversampleBits kOversampleBits);
          (channel_ref chan, SetAverageBits kAverageBits)] ++ calls (world s).
Proof.
  intros Ha Hlsb Hnone. apply Qeq_bool_nonzero in Hlsb.
  assert (Hbranch : forall (k1 : Py.num -> Py.num -> M State unit) k2,
             match c, o with Some x, Some y => k1 x y | _, _ => k2 end = k2).
  { intros k1 k2. destruct Hnone; subst; [reflexivity | destruct c; reflexivity]. }
  init_cases s chan; rewrite Hbranch;
    (eexists; split; [reflexivity|]); record_simpl;
    rewrite ?lookup_insert_eq, ?deadband_zero; repeat split.
Qed.

(** *** The bench states are what their comments say *)

Lemma calibrated_gyro_port :
  analog (self calibrated_gyro) = Some 0
  /\ channels (world calibrated_gyro) !! 0 = Some calibrated_port
  /\ center (self calibrated_gyro) = Some 500000
  /\ offset (self calibrated_gyro) = Some 0.000%Q
  /\ channelAllocated (self calibrated_gyro) = true.
Proof. vm_compute. repeat split. Qed.

Lemma preset_gyro_port :
  analog (self preset_gyro) = Some 0
  /\ channels (world preset_gyro) !! 0 = Some preset_port
  /\ center (self preset_gyro) = Some 1000
  /\ offset (self preset_gyro) = Some 0.25%Q
  /\ channelAllocated (self preset_gyro) = false.
Proof. vm_compute. repeat split. Qed.

Lemma turning_gyro_port :
  analog (self turning_gyro) = Some 0
  /\ channels (world turning_gyro) !! 0 = Some turning_port.
Proof. vm_compute. repeat split. Qed.

Lemma turning_preset_gyro_port :
  analog (self turning_preset_gyro) = Some 0
  /\ channels (world turning_preset_gyro) !! 0 = Some turning_preset_port.
Proof. vm_compute. repeat split. Qed.

(** ** Calibration *)

(** The mean, times the count, is the sum. *)
Lemma mean_times_count (v c : Z) :
  c <> 0 ->
  (Py.float_of_int v / Py.float_of_int c * Py.float_of_int c
   == Py.float_of_int v)%Q.
Proof.
  intros Hc. field. apply float_of_int_nonzero. exact Hc.
Qed.

(** When the mean is at least -1/2, the mean and its rounding [ctr] differ
    by less than one. *)
Lemma offset_bound (v c ctr : Z) (q : Q) :
  0 < c -> 0 <= 2 * v + c ->
  ctr = (2 * v + c) ÷ (2 * c) ->
  (q * inject_Z c == inject_Z v)%Q ->
  (Qabs (q - inject_Z ctr) < 1)%Q.
Proof.
  intros Hc Hv Hctr Hq.
  rewrite Z.quot_div_nonneg in Hctr by lia.
  assert (H1 : 2 * c * ctr <= 2 * v + c) by (subst ctr; apply Z.mul_div_le; lia).
  assert (H2 : 2 * v + c < 2 * c * ctr + 2 * c).
  { subst ctr. pose proof (Z.mul_succ_div_gt (2 * v + c) (2 * c)). lia. }
  rewrite Zle_Qle in H1. rewrite Zlt_Qlt in H2. rewrite Zlt_Qlt in Hc.
  repeat rewrite ?inject_Z_plus, ?inject_Z_mult in H1.
  repeat rewrite ?inject_Z_plus, ?inject_Z_mult in H2.
  change (inject_Z 0) with 0%Q in Hc. change (inject_Z 2) with 2%Q in *.
  clear Hctr Hv.
  generalize dependent (inject_Z c). generalize dependent (inject_Z v).
  generalize dependent (inject_Z ctr). intros tq vq cq. intros.
  apply Qabs_Qlt_condition.
  split; nra.
Qed.

(** The quotient truncated toward zero, between its two bounds. *)
Lemma quot_bounds (n m : Z) :
  0 < m ->
  (0 <= n -> m * (n ÷ m) <= n < m * (n ÷ m) + m)
  /\ (n <= 0 -> m * (n ÷ m) - m < n <= m * (n ÷ m)).
Proof.
  intros Hm.
  pose proof (Z.quot_rem' n m) as Hqr.
  pose proof (Z.rem_bound_abs n m ltac:(lia)) as Habs.
  split; intros Hn.
  - pose proof (Z.rem_bound_pos n m Hn Hm). lia.
  - pose proof (Z.rem_nonpos n m ltac:(lia) Hn). lia.
Qed.

(** The mean [q] against its rounding [ctr]: always within (-3/2, 1/2), and
    at least -1/2 when the mean is at least -1/2. *)
Lemma offset_range (v c ctr : Z) (q : Q) :
  0 < c ->
  ctr = (2 * v + c) ÷ (2 * c) ->
  (q * inject_Z c == inject_Z v)%Q ->
  (- (3 # 2) < q - inject_Z ctr)%Q
  /\ (q - inject_Z ctr < 1 # 2)%Q
  /\ (0 <= 2 * v + c -> (- (1 # 2) <= q - inject_Z ctr)%Q).
Proof.
  intros Hc Hctr Hq.
  destruct (quot_bounds (2 * v + c) (2 * c) ltac:(lia)) as [Hpos Hneg].
  rewrite <- Hctr in Hpos, Hneg.
  assert (Q0 : (0 < inject_Z c)%Q) by from_Z.
  assert (Q1 : (2 * inject_Z c * inject_Z ctr
                < 2 * inject_Z v + inject_Z c + 2 * inject_Z c)%Q) by from_Z.
  assert (Q2 : (2 * inject_Z v + inject_Z c
                < 2 * inject_Z c * inject_Z ctr + 2 * inject_Z c)%Q) by from_Z.
  split; [|split].
  - clear Hpos Hneg Hctr.
    generalize dependent (inject_Z c). generalize dependent (inject_Z v).
    generalize dependent (inject_Z ctr). intros. nra.
  - clear Hpos Hneg Hctr.
    generalize dependent (inject_Z c). generalize dependent (inject_Z v).
    generalize dependent (inject_Z ctr). intros. nra.
  - intros Hn.
    assert (Q3 : (2 * inject_Z c * inject_Z ctr
                  <= 2 * inject_Z v + inject_Z c)%Q) by from_Z.
    clear Hpos Hneg Hctr Hn.
    generalize dependent (inject_Z c). generalize dependent (inject_Z v).
    generalize dependent (inject_Z ctr). intros. nra.
Qed.

(** C1, as the code has it: for every accumulator snapshot (value, count)
    with count > 0, [calibrate] returns and stores a center and an offset with
    center + offset == value/count; and |offset| < 1 whenever
    value/count >= -1/2, that is 2*value + count >= 0, so in particular for
    every value >= 0. *)
Theorem calibrate_center_offset
    (s : State) (r : Z) (a : AnalogInput) (value count : Z) :
  analog (self s) = Some r ->
  channels (world s) !! r = Some a ->
  0 < count ->
  exists s' ctr off,
    calibrate (value, count) s = Ok tt s'
    /\ center (self s') = Some ctr
    /\ offset (self s') = Some off
    /\ (Py.float_of_int ctr + off
        == Py.float_of_int value / Py.float_of_int count)%Q
    /\ (0 <= 2 * value + count -> (Qabs off < 1)%Q).
Proof.
  intros Hr Ha Hc.
  destruct (calibrate_ok s r a Hr Ha value count ltac:(lia))
    as (s' & Hrun & Hself & _).
  exists s'. eexists. eexists.
  split; [exact Hrun|]. rewrite Hself. record_simpl.
  split; [reflexivity|]. split; [reflexivity|]. split.
  - ring.
  - intros Hv. apply (offset_bound value count); try assumption.
    + apply int_of_mean_plus_half. exact Hc.
    + apply mean_times_count. lia.
Qed.

(** The snapshot of the spec's example: center 500000 and offset 0. *)
Lemma calibrate_center_offset_witness :
  analog (self calibrated_gyro) = Some 0
  /\ channels (world calibrated_gyro) !! 0 = Some calibrated_port
  /\ 0 < 1000
  /\ exists s' ctr off,
       calibrate (500000000, 1000) calibrated_gyro = Ok tt s'
       /\ center (self s') = Some ctr
       /\ offset (self s') = Some off
       /\ (Py.float_of_int ctr + off
           == Py.float_of_int 500000000 / Py.float_of_int 1000)%Q
       /\ (0 <= 2 * 500000000 + 1000 -> (Qabs off < 1)%Q).
Proof.
  split; [vm_compute; reflexivity|].
  split; [vm_compute; reflexivity|].
  split; [lia|].
  apply (calibrate_center_offset calibrated_gyro 0 calibrated_port);
    [vm_compute; reflexivity | vm_compute; reflexivity | lia].
Defined.

(** C1 as stated fails on a negative mean: with the snapshot (-14, 10) the
    mean is -1.4, [int(-1.4 + .5)] is [int(-0.9)], which is 0, and the
    offset is -1.4. *)
Lemma calibrate_negative_mean_offset :
  exists s' off,
    calibrate (-14, 10) calibrated_gyro = Ok tt s'
    /\ center (self s') = Some 0
    /\ offset (self s') = Some off
    /\ (off == -1.4)%Q
    /\ ~ (Qabs off < 1)%Q.
Proof.
  eexists. eexists.
  split; [vm_compute; reflexivity|].
  split; [vm_compute; reflexivity|].
  split; [vm_compute; reflexivity|].
  split; [vm_compute; reflexivity|].
  vm_compute. intros H. discriminate H.
Qed.

(** C4, as the code has it: for every accumulator snapshot (value, count)
    with count > 0, [calibrate] stores as center value/count plus 0.5
    truncated toward zero to an integer, which is (2*value + count) quotient
    (2*count) with the quotient truncated toward zero; a tie
    value/count = k + 1/2 goes to k + 1, toward positive infinity; and the
    center is value/count rounded to the nearest integer with ties toward
    positive infinity, that is center <= value/count + 1/2 < center + 1,
    whenever value/count >= -1/2 (2*value + count >= 0), so in particular
    for every value >= 0. *)
Theorem calibrate_center_rounding
    (s : State) (r : Z) (a : AnalogInput) (value count : Z) :
  analog (self s) = Some r ->
  channels (world s) !! r = Some a ->
  0 < count ->
  exists s',
    calibrate (value, count) s = Ok tt s'
    /\ center (self s')
       = Some (Py.int_of_float
                 (Py.float_of_int value / Py.float_of_int count + 0.5))
    /\ center (self s') = Some ((2 * value + count) ÷ (2 * count))
    /\ (forall k : Z, 2 * value = (2 * k + 1) * count ->
          center (self s') = Some (k + 1))
    /\ (0 <= 2 * value + count ->
        exists ctr : Z,
          center (self s') = Some ctr
          /\ (inject_Z ctr
              <= Py.float_of_int value / Py.float_of_int count + (1 # 2))%Q
          /\ (Py.float_of_int value / Py.float_of_int count + (1 # 2)
              < inject_Z ctr + 1)%Q).
Proof.
  intros Hr Ha Hc.
  destruct (calibrate_ok s r a Hr Ha value count ltac:(lia))
    as (s' & Hrun & Hself & _).
  exists s'. split; [exact Hrun|]. rewrite Hself. record_simpl.
  rewrite int_of_mean_plus_half by exact Hc.
  split; [reflexivity|]. split; [reflexivity|]. split.
  - intros k Hk. f_equal.
    replace (2 * value + count) with ((k + 1) * (2 * count)) by lia.
    apply Z.quot_mul. lia.
  - intros Hv. eexists. split; [reflexivity|].
    destruct (offset_range value count ((2 * value + count) ÷ (2 * count))
                (Py.float_of_int value / Py.float_of_int count)%Q Hc eq_refl
                (mean_times_count value count ltac:(lia)))
      as (_ & Hhi & Hlo).
    specialize (Hlo Hv). split; lra.
Qed.

(** Ties on both sides of zero: 2.5 goes to 3 and -2.5 goes to -2. *)
Lemma calibrate_center_rounding_witness :
  (analog (self calibrated_gyro) = Some 0
   /\ channels (world calibrated_gyro) !! 0 = Some calibrated_port
   /\ 0 < 2)
  /\ (exists s',
        calibrate (5, 2) calibrated_gyro = Ok tt s'
        /\ center (self s')
           = Some (Py.int_of_float (Py.float_of_int 5 / Py.float_of_int 2 + 0.5))
        /\ center (self s') = Some ((2 * 5 + 2) ÷ (2 * 2))
        /\ (forall k : Z, 2 * 5 = (2 * k + 1) * 2 -> center (self s') = Some (k + 1))
        /\ (0 <= 2 * 5 + 2 ->
            exists ctr : Z,
              center (self s') = Some ctr
              /\ (inject_Z ctr
                  <= Py.float_of_int 5 / Py.float_of_int 2 + (1 # 2))%Q
              /\ (Py.float_of_int 5 / Py.float_of_int 2 + (1 # 2)
                  < inject_Z ctr + 1)%Q))
  /\ (exists s',
        calibrate (-5, 2) calibrated_gyro = Ok tt s'
        /\ center (self s')
           = Some (Py.int_of_float (Py.float_of_int (-5) / Py.float_of_int 2 + 0.5))
        /\ center (self s') = Some ((2 * -5 + 2) ÷ (2 * 2))
        /\ (forall k : Z, 2 * -5 = (2 * k + 1) * 2 -> center (self s') = Some (k + 1))
        /\ (0 <= 2 * -5 + 2 ->
            exists ctr : Z,
              center (self s') = Some ctr
              /\ (inject_Z ctr
                  <= Py.float_of_int (-5) / Py.float_of_int 2 + (1 # 2))%Q
              /\ (Py.float_of_int (-5) / Py.float_of_int 2 + (1 # 2)
                  < inject_Z ctr + 1)%Q)).
Proof.
  split; [repeat split; try (vm_compute; reflexivity)|].
  split;
    apply (calibrate_center_rounding calibrated_gyro 0 calibrated_port);
    [vm_compute; reflexivity | vm_compute; reflexivity | lia
    |vm_compute; reflexivity | vm_compute; reflexivity | lia].
Defined.

(** C4 as stated fails on a negative mean: with the snapshot (-22, 10) the
    mean is -2.2, whose nearest integer is -2 (the floor of -1.7), while
    [int(-2.2 + .5)] is [int(-1.7)], which is -1: the stored center is more
    than 1/2 away from the mean, and it is above mean + 1/2. *)
Lemma calibrate_center_not_nearest :
  exists s',
    calibrate (-22, 10) calibrated_gyro = Ok tt s'
    /\ center (self s') = Some (-1)
    /\ (2 * -22 + 10) / (2 * 10) = -2
    /\ ~ (inject_Z (-1)
          <= Py.float_of_int (-22) / Py.float_of_int 10 + (1 # 2))%Q
    /\ (1 # 2
        < Qabs (Py.float_of_int (-22) / Py.float_of_int 10 - inject_Z (-1)))%Q.
Proof.
  eexists.
  split; [vm_compute; reflexivity|].
  split; [vm_compute; reflexivity|].
  split; [reflexivity|].
  split; [vm_compute; intros H; apply H; reflexivity|].
  vm_compute. reflexivity.
Qed.

(** C7: [calibrate] on a snapshot whose count is 0 raises
    [ZeroDivisionError]; it has then assigned neither [center] nor [offset],
    and it has not pushed a center to the channel. *)
Theorem calibrate_no_sample_raises
    (s : State) (r : Z) (a : AnalogInput) (value : Z) :
  analog (self s) = Some r ->
  channels (world s) !! r = Some a ->
  exists s',
    calibrate (value, 0) s = Raise Py.ZeroDivisionError s'
    /\ center (self s') = center (self s)
    /\ offset (self s') = offset (self s)
    /\ (exists a', channels (world s') !! r = Some a'
                   /\ accumulatorCenter a' = accumulatorCenter a)
    /\ calls (world s')
       = [(r, ResetAccumulator); (r, InitAccumulator)] ++ calls (world s).
Proof.
  intros Hr Ha.
  destruct (calibrate_no_sample s r a Hr Ha value)
    as (s' & Hrun & Hself & Hch & Hcalls).
  exists s'. split; [exact Hrun|]. rewrite Hself, Hch, Hcalls.
  split; [reflexivity|]. split; [reflexivity|]. split; [|reflexivity].
  eexists. split; [apply lookup_insert_eq | reflexivity].
Qed.

(** The same through the constructor: when it calibrates and no sample was
    gathered, the fault leaves [__init__]. *)
Lemma init_no_sample_raises chan c o (value : Z) s a :
  channels (world s) !! channel_ref chan = Some a ->
  ~ (LSBWeight a == 0)%Q ->
  c = None \/ o = None ->
  exists s',
    __init__ chan c o (value, 0) s = Raise Py.ZeroDivisionError s'
    /\ center (self s') = center (self s)
    /\ offset (self s') = offset (self s).
Proof.
  intros Ha Hlsb Hnone.
  destruct (init_calibrates chan c o (value, 0) s a Ha Hlsb Hnone)
    as (s1 & -> & Hr1 & Ha1 & Hc1 & Ho1 & _).
  destruct (calibrate_no_sample s1 _ _ Hr1 Ha1 value) as (s' & -> & Hself & _).
  exists s'. rewrite Hself. repeat split; assumption.
Qed.

(** The constructor [AnalogGyro(0)] on a port that gathered no sample:
    the fault reaches the caller, with [center] and [offset] unassigned. *)
Lemma calibrate_no_sample_raises_witness :
  (analog (self calibrated_gyro) = Some 0
   /\ channels (world calibrated_gyro) !! 0 = Some calibrated_port)
  /\ (exists s',
        calibrate (500000000, 0) calibrated_gyro = Raise Py.ZeroDivisionError s'
        /\ center (self s') = center (self calibrated_gyro)
        /\ offset (self s') = offset (self calibrated_gyro)
        /\ (exists a', channels (world s') !! 0 = Some a'
                       /\ accumulatorCenter a' = accumulatorCenter calibrated_port)
        /\ calls (world s')
           = [(0, ResetAccumulator); (0, InitAccumulator)]
             ++ calls (world calibrated_gyro))
  /\ (exists s',
        __init__ (Index 0) None None (500000000, 0) boot
        = Raise Py.ZeroDivisionError s'
        /\ center (self s') = None
        /\ offset (self s') = None).
Proof.
  split; [split; vm_compute; reflexivity|].
  split.
  - apply (calibrate_no_sample_raises calibrated_gyro 0 calibrated_port);
      vm_compute; reflexivity.
  - eexists. split; [vm_compute; reflexivity|]. split; reflexivity.
Defined.

(** ** Construction *)

(** Whatever the snapshot, [calibrate] on an attached driver arms the
    accumulator: the call is in the trace afterwards. *)
Lemma calibrate_logs_init (s : State) (r : Z) (a : AnalogInput) (smp : Z * Z) :
  analog (self s) = Some r ->
  channels (world s) !! r = Some a ->
  In (r, InitAccumulator) (calls (world (final (calibrate smp s)))).
Proof.
  intros Hr Ha. destruct smp as [v c].
  destruct (Z.eq_dec c 0) as [->|Hc].
  - destruct (calibrate_no_sample s r a Hr Ha v) as (s' & -> & _ & _ & Hcalls).
    record_simpl. rewrite Hcalls. cbn. auto.
  - destruct (calibrate_ok s r a Hr Ha v c Hc) as (s' & -> & _ & _ & Hcalls & _).
    record_simpl. rewrite Hcalls. cbn. auto.
Qed.

(** C2, as the code has it: the constructor runs [calibrate] exactly when
    at least one of the presets is absent.  When both are supplied it does not
    calibrate: it adopts center = int(presetCenter) and
    offset = float(presetOffset), pushes the center to the channel and resets
    the accumulator.  When one is absent and the snapshot has a non-zero
    count, the stored center is the one [calibrate] computes from the
    snapshot, whatever the other preset was. *)
Theorem init_calibrates_unless_both_presets
    (chan : ChannelArg) (c o : option Py.num) (value count : Z)
    (s : State) (a : AnalogInput) :
  channels (world s) !! channel_ref chan = Some a ->
  ~ (LSBWeight a == 0)%Q ->
  ~ In (channel_ref chan, InitAccumulator) (calls (world s)) ->
  let out := __init__ chan c o (value, count) s in
  (In (channel_ref chan, InitAccumulator) (calls (world (final out)))
   <-> c = None \/ o = None)
  /\ (forall pc po, c = Some pc -> o = Some po ->
        returns out = true
        /\ center (self (final out)) = Some (Py.int pc)
        /\ offset (self (final out)) = Some (Py.float po)
        /\ exists a',
             channels (world (final out)) !! channel_ref chan = Some a'
             /\ accumulatorCenter a' = Py.int pc
             /\ accumulator a' = (0, 0))
  /\ (c = None \/ o = None -> count <> 0 ->
        returns out = true
        /\ center (self (final out))
           = Some (Py.int_of_float
                     (Py.float_of_int value / Py.float_of_int count + 0.5))).
Proof.
  intros Ha Hlsb Hlog out. subst out.
  assert (Hcases : (c = None \/ o = None) \/ exists pc po, c = Some pc /\ o = Some po).
  { destruct c, o; eauto. }
  destruct Hcases as [Hnone | (pc & po & -> & ->)].
  - destruct (init_calibrates chan c o (value, count) s a Ha Hlsb Hnone)
      as (s1 & -> & Hr1 & Ha1 & _).
    split; [|split].
    + split; [intros _; exact Hnone|].
      intros _. eapply calibrate_logs_init; eassumption.
    + intros pc po -> ->. destruct Hnone; discriminate.
    + intros _ Hc.
      destruct (calibrate_ok s1 _ _ Hr1 Ha1 value count Hc)
        as (s' & -> & Hself & _).
      record_simpl. rewrite Hself. split; reflexivity.
  - destruct (init_presets chan pc po (value, count) s a Ha Hlsb)
      as (s' & -> & Hc & Ho & _ & _ & _ & Hch & Hcalls).
    record_simpl. split; [|split].
    + split; [|intros [H|H]; discriminate].
      rewrite Hcalls. cbn. intros H.
      repeat (destruct H as [H|H]; [discriminate|]). contradiction.
    + intros pc' po' [= <-] [= <-].
      split; [reflexivity|]. split; [exact Hc|]. split; [exact Ho|].
      eexists. split; [exact Hch|]. split; reflexivity.
    + intros [H|H]; discriminate.
Qed.

(** Both branches on the bench: [AnalogGyro(ai, 1000, 0.25)] and
    [AnalogGyro(ai)]. *)
Lemma init_calibrates_unless_both_presets_witness :
  (channels (world boot) !! channel_ref (Object 0) = Some port0
   /\ ~ (LSBWeight port0 == 0)%Q
   /\ ~ In (channel_ref (Object 0), InitAccumulator) (calls (world boot)))
  /\ (let out :=
        __init__ (Object 0) (Some (Py.Int 1000)) (Some (Py.Float 0.25))
          (500000000, 1000) boot in
      (In (channel_ref (Object 0), InitAccumulator) (calls (world (final out)))
       <-> Some (Py.Int 1000) = None \/ Some (Py.Float 0.25) = None)
      /\ (forall pc po,
            Some (Py.Int 1000) = Some pc -> Some (Py.Float 0.25) = Some po ->
            returns out = true
            /\ center (self (final out)) = Some (Py.int pc)
            /\ offset (self (final out)) = Some (Py.float po)
            /\ exists a',
                 channels (world (final out)) !! channel_ref (Object 0) = Some a'
                 /\ accumulatorCenter a' = Py.int pc
                 /\ accumulator a' = (0, 0))
      /\ (Some (Py.Int 1000) = None \/ Some (Py.Float 0.25) = None ->
          1000 <> 0 ->
          returns out = true
          /\ center (self (final out))
             = Some (Py.int_of_float
                       (Py.float_of_int 500000000 / Py.float_of_int 1000 + 0.5))))
  /\ (let out := __init__ (Object 0) None None (500000000, 1000) boot in
      (In (channel_ref (Object 0), InitAccumulator) (calls (world (final out)))
       <-> @None Py.num = None \/ @None Py.num = None)
      /\ (forall pc po,
            None = Some pc -> None = Some po ->
            returns out = true
            /\ center (self (final out)) = Some (Py.int pc)
            /\ offset (self (final out)) = Some (Py.float po)
            /\ exists a',
                 channels (world (final out)) !! channel_ref (Object 0) = Some a'
                 /\ accumulatorCenter a' = Py.int pc
                 /\ accumulator a' = (0, 0))
      /\ (@None Py.num = None \/ @None Py.num = None ->
          1000 <> 0 ->
          returns out = true
          /\ center (self (final out))
             = Some (Py.int_of_float
                       (Py.float_of_int 500000000 / Py.float_of_int 1000 + 0.5)))).
Proof.
  assert (H1 : channels (world boot) !! channel_ref (Object 0) = Some port0)
    by (vm_compute; reflexivity).
  assert (H2 : ~ (LSBWeight port0 == 0)%Q)
    by (vm_compute; intros H; discriminate H).
  assert (H3 : ~ In (channel_ref (Object 0), InitAccumulator) (calls (world boot)))
    by (cbn; intros H; exact H).
  split; [repeat split; assumption|].
  split.
  - exact (init_calibrates_unless_both_presets (Object 0)
             (Some (Py.Int 1000)) (Some (Py.Float 0.25)) 500000000 1000
             boot port0 H1 H2 H3).
  - exact (init_calibrates_unless_both_presets (Object 0) None None
             500000000 1000 boot port0 H1 H2 H3).
Defined.

(** C2 as stated fails when exactly one preset is supplied:
    [AnalogGyro(ai, center=1000)] calibrates, and the stored center is the
    calibrated 500000, not the preset 1000. *)
Lemma init_center_preset_alone_calibrates :
  let out := __init__ (Object 0) (Some (Py.Int 1000)) None (500000000, 1000) boot in
  returns out = true
  /\ In (0, InitAccumulator) (calls (world (final out)))
  /\ center (self (final out)) = Some 500000
  /\ center (self (final out)) <> Some (Py.int (Py.Int 1000)).
Proof.
  cbv zeta.
  split; [vm_compute; reflexivity|].
  split; [vm_compute; auto 10|].
  split; [vm_compute; reflexivity|].
  vm_compute. intros H. discriminate H.
Qed.

(** ** Release *)

(** C3, as the code has it: [free] returns, and a second [free] returns too
    and changes nothing, whoever allocated the channel; when the driver
    allocated its channel itself, [getAngle] and [getRate] both return 0.0
    after [free], whatever the state was before. *)
Theorem free_then_zero (s : State) :
  attached s = true ->
  exists s',
    free s = Ok tt s'
    /\ free s' = Ok tt s'
    /\ (channelAllocated (self s) = true ->
        getAngle s' = Ok 0.0%Q s' /\ getRate s' = Ok 0.0%Q s').
Proof.
  unfold attached. intros Hat.
  destruct (analog (self s)) as [r|] eqn:Hr.
  - destruct (channels (world s) !! r) as [a|] eqn:Ha; [|discriminate].
    destruct (channelAllocated (self s)) eqn:Hown.
    + destruct (free_owned s r a Hr Ha Hown) as (s' & Hfree & Hr' & Hown' & Hid).
      exists s'. split; [exact Hfree|]. split.
      * rewrite (free_released s' Hr'). f_equal.
        revert Hfree. run. intros [= <-]. record_simpl.
        unfold on_world, set_liveWindow. record_simpl.
        rewrite delete_delete_eq. reflexivity.
      * intros _. split; [apply getAngle_released | apply getRate_released];
          exact Hr'.
    + rewrite (free_borrowed s Hown). eexists. split; [reflexivity|]. split.
      * rewrite (free_borrowed (on_world _ s) Hown). f_equal.
        unfold on_world, set_liveWindow. record_simpl.
        rewrite delete_delete_eq. reflexivity.
      * discriminate.
  - rewrite (free_released s Hr). eexists. split; [reflexivity|]. split.
    + rewrite (free_released (on_world _ s) Hr). f_equal.
        unfold on_world, set_liveWindow. record_simpl.
        rewrite delete_delete_eq. reflexivity.
    + intros _. split; [apply getAngle_released | apply getRate_released];
        exact Hr.
Qed.

(** An owned channel with samples in the accumulator, then released. *)
Lemma free_then_zero_witness :
  attached turning_gyro = true
  /\ exists s',
       free turning_gyro = Ok tt s'
       /\ free s' = Ok tt s'
       /\ (channelAllocated (self turning_gyro) = true ->
           getAngle s' = Ok 0.0%Q s' /\ getRate s' = Ok 0.0%Q s').
Proof.
  split; [vm_compute; reflexivity|].
  apply (free_then_zero turning_gyro). vm_compute. reflexivity.
Defined.

(** C3 as stated fails on a driver that borrows its channel: [free] leaves
    the reference in place, and [getAngle] and [getRate] go on computing from
    the channel. *)
Lemma free_borrowed_still_measures :
  exists s' angle rate,
    channelAllocated (self turning_preset_gyro) = false
    /\ free turning_preset_gyro = Ok tt s'
    /\ analog (self s') = Some 0
    /\ getAngle s' = Ok angle s'
    /\ getRate s' = Ok rate s'
    /\ ~ (angle == 0.0)%Q
    /\ ~ (rate == 0.0)%Q.
Proof.
  eexists. eexists. eexists.
  split; [vm_compute; reflexivity|].
  split; [vm_compute; reflexivity|].
  split; [vm_compute; reflexivity|].
  split; [vm_compute; reflexivity|].
  split; [vm_compute; reflexivity|].
  split; vm_compute; intros H; discriminate H.
Qed.

(** ** Reset *)

(** C9: on every attached driver [reset] returns and leaves the driver
    object, so [center] and [offset], as it was; on a released driver it
    changes nothing at all; otherwise the accumulator of the channel is (0, 0)
    afterwards, and [getAngle], called next on a calibrated driver whose
    divisor (sample rate times sensitivity) is not zero, returns zero. *)
Theorem reset_zeroes_angle (s : State) :
  attached s = true ->
  exists s',
    reset s = Ok tt s'
    /\ self s' = self s
    /\ (analog (self s) = None -> s' = s)
    /\ (forall r, analog (self s) = Some r ->
          exists a', channels (world s') !! r = Some a'
                     /\ accumulator a' = (0, 0))
    /\ (forall off,
          offset (self s) = Some off ->
          ~ (globalSampleRate (world s) * voltsPerDegreePerSecond (self s) == 0)%Q ->
          exists angle, getAngle s' = Ok angle s' /\ (angle == 0)%Q).
Proof.
  unfold attached. intros Hat.
  destruct (analog (self s)) as [r|] eqn:Hr.
  - destruct (channels (world s) !! r) as [a|] eqn:Ha; [|discriminate].
    rewrite (reset_ok s r a Hr Ha). eexists. split; [reflexivity|].
    record_simpl. split; [reflexivity|]. split; [discriminate|]. split.
    + intros r' [= <-]. eexists. split; [apply lookup_insert_eq|reflexivity].
    + intros off Hoff Hden. eexists. split.
      * eapply getAngle_ok; record_simpl;
          [exact Hr | apply lookup_insert_eq | exact Hoff | exact Hden].
      * record_simpl. unfold Py.float_of_int.
        change (inject_Z 0) with 0%Q.
        unfold Qdiv. ring.
  - rewrite (reset_released s Hr). exists s.
    split; [reflexivity|]. split; [reflexivity|]. split; [reflexivity|]. split.
    + discriminate.
    + intros off _ _. rewrite (getAngle_released s Hr).
      eexists. split; reflexivity.
Qed.

(** A turning driver, and the same driver once released. *)
Lemma reset_zeroes_angle_witness :
  (attached turning_preset_gyro = true
   /\ exists s',
        reset turning_preset_gyro = Ok tt s'
        /\ self s' = self turning_preset_gyro
        /\ (analog (self turning_preset_gyro) = None -> s' = turning_preset_gyro)
        /\ (forall r, analog (self turning_preset_gyro) = Some r ->
              exists a', channels (world s') !! r = Some a'
                         /\ accumulator a' = (0, 0))
        /\ (forall off,
              offset (self turning_preset_gyro) = Some off ->
              ~ (globalSampleRate (world turning_preset_gyro)
                 * voltsPerDegreePerSecond (self turning_preset_gyro) == 0)%Q ->
              exists angle, getAngle s' = Ok angle s' /\ (angle == 0)%Q))
  /\ offset (self turning_preset_gyro) = Some 0.25%Q
  /\ ~ (globalSampleRate (world turning_preset_gyro)
        * voltsPerDegreePerSecond (self turning_preset_gyro) == 0)%Q.
Proof.
  split; [split; [vm_compute; reflexivity|]|].
  - apply (reset_zeroes_angle turning_preset_gyro). vm_compute. reflexivity.
  - split; [vm_compute; reflexivity|]. vm_compute. intros H. discriminate H.
Defined.

(** ** Measurement *)

(** C5: on a driver that is not released and holds an offset, with the
    accumulator at (value, count) and a divisor (sample rate times
    sensitivity) that is not zero, [getAngle] returns
    (value - count * offset) * 1e-9 * LSBWeight * 2^averageBits
    / (globalSampleRate * sensitivity). *)
Theorem getAngle_formula
    (s : State) (r : Z) (a : AnalogInput) (value count : Z) (off : Q) :
  analog (self s) = Some r ->
  channels (world s) !! r = Some a ->
  accumulator a = (value, count) ->
  offset (self s) = Some off ->
  ~ (globalSampleRate (world s) * voltsPerDegreePerSecond (self s) == 0)%Q ->
  exists angle,
    getAngle s = Ok angle s
    /\ (angle
        == (inject_Z value - inject_Z count * off)
           * 1e-9 * LSBWeight a * inject_Z (2 ^ Z.of_N (averageBits a))
           / (globalSampleRate (world s) * voltsPerDegreePerSecond (self s)))%Q.
Proof.
  intros Hr Ha Hacc Hoff Hden.
  rewrite (getAngle_ok s r a Hr Ha off Hoff Hden).
  eexists. split; [reflexivity|].
  rewrite Hacc, shl1_pow. record_simpl. reflexivity.
Qed.

(** The spec's example: LSBWeight 7.6295e-6, averageBits 0, sample rate
    51200, sensitivity 0.007, offset 0, accumulator (505000000, 1010). *)
Lemma getAngle_formula_witness :
  (analog (self turning_gyro) = Some 0
   /\ channels (world turning_gyro) !! 0 = Some turning_port
   /\ accumulator turning_port = (505000000, 1010)
   /\ offset (self turning_gyro) = Some 0.000%Q
   /\ ~ (globalSampleRate (world turning_gyro)
         * voltsPerDegreePerSecond (self turning_gyro) == 0)%Q)
  /\ (LSBWeight turning_port == 7.6295e-6
      /\ averageBits turning_port = 0%N
      /\ globalSampleRate (world turning_gyro) == 51200
      /\ voltsPerDegreePerSecond (self turning_gyro) == 0.007)%Q
  /\ exists angle,
       getAngle turning_gyro = Ok angle turning_gyro
       /\ (angle
           == (505000000 - 1010 * 0) * 1e-9 * 7.6295e-6 * 1 / (51200 * 0.007))%Q.
Proof.
  assert (H1 : analog (self turning_gyro) = Some 0) by (vm_compute; reflexivity).
  assert (H2 : channels (world turning_gyro) !! 0 = Some turning_port)
    by (vm_compute; reflexivity).
  assert (H3 : accumulator turning_port = (505000000, 1010)) by reflexivity.
  assert (H4 : offset (self turning_gyro) = Some 0.000%Q)
    by (vm_compute; reflexivity).
  assert (H5 : ~ (globalSampleRate (world turning_gyro)
                  * voltsPerDegreePerSecond (self turning_gyro) == 0)%Q)
    by (vm_compute; intros H; discriminate H).
  split; [repeat split; assumption|].
  split; [repeat split; vm_compute; reflexivity|].
  destruct (getAngle_formula turning_gyro 0 turning_port 505000000 1010 0.000%Q
              H1 H2 H3 H4 H5) as (angle & Hrun & Heq).
  exists angle. split; [exact Hrun|].
  rewrite Heq. vm_compute. reflexivity.
Defined.

(** C6: on a driver that is not released and holds a center and an offset,
    with a sensitivity that is not zero, [getRate] returns
    (averageValue - (center + offset)) * 1e-9 * LSBWeight
    / (2^oversampleBits * sensitivity); the averaged value is the channel's
    own, and whatever the accumulator holds the result is the same. *)
Theorem getRate_formula
    (s : State) (r : Z) (a : AnalogInput) (c : Z) (off : Q) :
  analog (self s) = Some r ->
  channels (world s) !! r = Some a ->
  center (self s) = Some c ->
  offset (self s) = Some off ->
  ~ (voltsPerDegreePerSecond (self s) == 0)%Q ->
  exists rate,
    getRate s = Ok rate s
    /\ (rate
        == (inject_Z (averageValue a) - (inject_Z c + off))
           * 1e-9 * LSBWeight a
           / (inject_Z (2 ^ Z.of_N (oversampleBits a))
              * voltsPerDegreePerSecond (self s)))%Q
    /\ (forall acc : Z * Z,
          let s_acc :=
            on_world (set_channels (insert r (set_accumulator (fun _ => acc) a))) s in
          getRate s_acc = Ok rate s_acc).
Proof.
  intros Hr Ha Hc Hoff Hv.
  rewrite (getRate_ok s r a Hr Ha c off Hc Hoff Hv).
  eexists. split; [reflexivity|]. split.
  - rewrite shl1_pow. reflexivity.
  - intros acc s_acc.
    assert (Ha' : channels (world s_acc) !! r
                  = Some (set_accumulator (fun _ => acc) a))
      by apply lookup_insert_eq.
    rewrite (getRate_ok s_acc r _ Hr Ha' c off Hc Hoff Hv). reflexivity.
Qed.

(** The preset driver (center 1000, offset 0.25) while the averaged value
    reads 2048. *)
Lemma getRate_formula_witness :
  (analog (self turning_preset_gyro) = Some 0
   /\ channels (world turning_preset_gyro) !! 0 = Some turning_preset_port
   /\ center (self turning_preset_gyro) = Some 1000
   /\ offset (self turning_preset_gyro) = Some 0.25%Q
   /\ ~ (voltsPerDegreePerSecond (self turning_preset_gyro) == 0)%Q)
  /\ exists rate,
       getRate turning_preset_gyro = Ok rate turning_preset_gyro
       /\ (rate == (2048 - (1000 + 0.25)) * 1e-9 * 7.6295e-6 / (1024 * 0.007))%Q
       /\ (forall acc : Z * Z,
             let s_acc :=
               on_world (set_channels
                           (insert 0 (set_accumulator (fun _ => acc)
                                        turning_preset_port)))
                 turning_preset_gyro in
             getRate s_acc = Ok rate s_acc).
Proof.
  assert (H1 : analog (self turning_preset_gyro) = Some 0)
    by (vm_compute; reflexivity).
  assert (H2 : channels (world turning_preset_gyro) !! 0 = Some turning_preset_port)
    by (vm_compute; reflexivity).
  assert (H3 : center (self turning_preset_gyro) = Some 1000)
    by (vm_compute; reflexivity).
  assert (H4 : offset (self turning_preset_gyro) = Some 0.25%Q)
    by (vm_compute; reflexivity).
  assert (H5 : ~ (voltsPerDegreePerSecond (self turning_preset_gyro) == 0)%Q)
    by (vm_compute; intros H; discriminate H).
  split; [repeat split; assumption|].
  destruct (getRate_formula turning_preset_gyro 0 turning_preset_port 1000 0.25%Q
              H1 H2 H3 H4 H5) as (rate & Hrun & Heq & Hacc).
  exists rate. split; [exact Hrun|]. split; [|exact Hacc].
  rewrite Heq. vm_compute. reflexivity.
Defined.

(** C10: [getAngle] never divides by the sample count.  On a driver that is
    not released and holds an offset, with the accumulator at (value, count)
    for any count, zero included, it raises exactly when the divisor sample
    rate times sensitivity is zero; otherwise it returns
    (value - count * offset) times the conversion factor
    1e-9 * LSBWeight * (1 << averageBits) / (sample rate * sensitivity),
    which is zero when value and count are both 0. *)
Theorem getAngle_no_count_division
    (s : State) (r : Z) (a : AnalogInput) (value count : Z) (off : Q) :
  analog (self s) = Some r ->
  channels (world s) !! r = Some a ->
  accumulator a = (value, count) ->
  offset (self s) = Some off ->
  let divisor :=
    (globalSampleRate (world s) * voltsPerDegreePerSecond (self s))%Q in
  let factor :=
    (1e-9 * LSBWeight a * Py.float_of_int (Py.shl1 (averageBits a)) / divisor)%Q in
  ((divisor == 0)%Q -> getAngle s = Raise Py.ZeroDivisionError s)
  /\ (~ (divisor == 0)%Q ->
      exists angle,
        getAngle s = Ok angle s
        /\ (angle == (inject_Z value - inject_Z count * off) * factor)%Q
        /\ (value = 0 -> count = 0 -> (angle == 0)%Q)).
Proof.
  intros Hr Ha Hacc Hoff divisor factor. split.
  - intros Hden. apply (getAngle_zero_divisor s r a Hr Ha off Hoff Hden).
  - intros Hden. rewrite (getAngle_ok s r a Hr Ha off Hoff Hden).
    eexists. split; [reflexivity|]. rewrite Hacc. record_simpl.
    subst factor. fold divisor. unfold Py.float_of_int. split.
    + unfold Qdiv. ring.
    + intros -> ->. change (inject_Z 0) with 0%Q. unfold Qdiv. ring.
Qed.

(** An empty accumulator, count 0 included: the angle is zero. *)
Lemma getAngle_no_count_division_witness :
  (analog (self calibrated_gyro) = Some 0
   /\ channels (world calibrated_gyro) !! 0 = Some calibrated_port
   /\ accumulator calibrated_port = (0, 0)
   /\ offset (self calibrated_gyro) = Some 0.000%Q)
  /\ (let divisor :=
        (globalSampleRate (world calibrated_gyro)
         * voltsPerDegreePerSecond (self calibrated_gyro))%Q in
      let factor :=
        (1e-9 * LSBWeight calibrated_port
         * Py.float_of_int (Py.shl1 (averageBits calibrated_port)) / divisor)%Q in
      ((divisor == 0)%Q ->
       getAngle calibrated_gyro = Raise Py.ZeroDivisionError calibrated_gyro)
      /\ (~ (divisor == 0)%Q ->
          exists angle,
            getAngle calibrated_gyro = Ok angle calibrated_gyro
            /\ (angle == (inject_Z 0 - inject_Z 0 * 0.000) * factor)%Q
            /\ (0 = 0 -> 0 = 0 -> (angle == 0)%Q)))
  /\ ~ (globalSampleRate (world calibrated_gyro)
        * voltsPerDegreePerSecond (self calibrated_gyro) == 0)%Q.
Proof.
  split; [repeat split; vm_compute; reflexivity|].
  split.
  - apply (getAngle_no_count_division calibrated_gyro 0 calibrated_port 0 0 0.000%Q);
      vm_compute; reflexivity.
  - vm_compute. intros H. discriminate H.
Defined.

(** ** Sensitivity *)

(** Dividing by twice the divisor halves the magnitude. *)
Lemma halved_magnitude (n d v x1 x2 : Q) :
  ~ (d == 0)%Q -> (0 < v)%Q ->
  (x1 == n / (d * v))%Q ->
  (x2 == n / (d * (2 * v)))%Q ->
  (Qabs x2 == Qabs x1 / 2)%Q.
Proof.
  intros Hd Hv H1 H2.
  assert (Hv' : ~ (v == 0)%Q) by (intros E; rewrite E in Hv; discriminate Hv).
  assert (E : (x2 == x1 * (1 # 2))%Q).
  { rewrite H1, H2. field. split; assumption. }
  rewrite E, Qabs_Qmult.
  change (Qabs (1 # 2)) with (1 # 2)%Q.
  unfold Qdiv. reflexivity.
Qed.

(** C8: on a driver that is not released and is calibrated, for every
    sensitivity v > 0 and the same channel readings (with a sample rate that is
    not zero), [getRate] and [getAngle] both return after [setSensitivity v]
    and after [setSensitivity (2 * v)], and the magnitude of each result after
    the second is half its magnitude after the first. *)
Theorem setSensitivity_double_halves
    (s : State) (r : Z) (a : AnalogInput) (c : Z) (off : Q) (v : Q) :
  analog (self s) = Some r ->
  channels (world s) !! r = Some a ->
  center (self s) = Some c ->
  offset (self s) = Some off ->
  ~ (globalSampleRate (world s) == 0)%Q ->
  (0 < v)%Q ->
  exists s1 s2 rate1 rate2 angle1 angle2,
    setSensitivity v s = Ok tt s1
    /\ setSensitivity (2 * v)%Q s = Ok tt s2
    /\ getRate s1 = Ok rate1 s1
    /\ getRate s2 = Ok rate2 s2
    /\ getAngle s1 = Ok angle1 s1
    /\ getAngle s2 = Ok angle2 s2
    /\ (Qabs rate2 == Qabs rate1 / 2)%Q
    /\ (Qabs angle2 == Qabs angle1 / 2)%Q.
Proof.
  intros Hr Ha Hc Hoff Hrate Hv.
  assert (Hv1 : ~ (v == 0)%Q) by (intros E; rewrite E in Hv; discriminate Hv).
  assert (Hv2 : ~ (2 * v == 0)%Q).
  { intros E. apply Hv1. apply Qmult_integral in E. destruct E as [E|E];
      [discriminate E | exact E]. }
  set (s1 := on_self (set_voltsPerDegreePerSecond v) s).
  set (s2 := on_self (set_voltsPerDegreePerSecond (2 * v)%Q) s).
  assert (Hd1 : ~ (globalSampleRate (world s1) * voltsPerDegreePerSecond (self s1)
                   == 0)%Q).
  { intros E. apply Qmult_integral in E. destruct E; contradiction. }
  assert (Hd2 : ~ (globalSampleRate (world s2) * voltsPerDegreePerSecond (self s2)
                   == 0)%Q).
  { intros E. apply Qmult_integral in E. destruct E; contradiction. }
  assert (Hk : ~ (Py.float_of_int (Py.shl1 (oversampleBits a)) == 0)%Q).
  { apply float_of_int_nonzero. pose proof (shl1_pos (oversampleBits a)). lia. }
  exists s1, s2. do 4 eexists.
  split; [reflexivity|]. split; [reflexivity|].
  split; [exact (getRate_ok s1 r a Hr Ha c off Hc Hoff Hv1)|].
  split; [exact (getRate_ok s2 r a Hr Ha c off Hc Hoff Hv2)|].
  split; [exact (getAngle_ok s1 r a Hr Ha off Hoff Hd1)|].
  split; [exact (getAngle_ok s2 r a Hr Ha off Hoff Hd2)|].
  subst s1 s2. record_simpl. split.
  - eapply (halved_magnitude _ _ v); [exact Hk | exact Hv | reflexivity | reflexivity].
  - eapply (halved_magnitude _ _ v); [exact Hrate | exact Hv | reflexivity | reflexivity].
Qed.

(** The turning driver at sensitivity 0.007 and at 0.014. *)
Lemma setSensitivity_double_halves_witness :
  (analog (self turning_gyro) = Some 0
   /\ channels (world turning_gyro) !! 0 = Some turning_port
   /\ center (self turning_gyro) = Some 500000
   /\ offset (self turning_gyro) = Some 0.000%Q
   /\ ~ (globalSampleRate (world turning_gyro) == 0)%Q
   /\ (0 < 0.007)%Q)
  /\ exists s1 s2 rate1 rate2 angle1 angle2,
       setSensitivity 0.007 turning_gyro = Ok tt s1
       /\ setSensitivity (2 * 0.007)%Q turning_gyro = Ok tt s2
       /\ getRate s1 = Ok rate1 s1
       /\ getRate s2 = Ok rate2 s2
       /\ getAngle s1 = Ok angle1 s1
       /\ getAngle s2 = Ok angle2 s2
       /\ (Qabs rate2 == Qabs rate1 / 2)%Q
       /\ (Qabs angle2 == Qabs angle1 / 2)%Q.
Proof.
  assert (H1 : analog (self turning_gyro) = Some 0) by (vm_compute; reflexivity).
  assert (H2 : channels (world turning_gyro) !! 0 = Some turning_port)
    by (vm_compute; reflexivity).
  assert (H3 : center (self turning_gyro) = Some 500000)
    by (vm_compute; reflexivity).
  assert (H4 : offset (self turning_gyro) = Some 0.000%Q)
    by (vm_compute; reflexivity).
  assert (H5 : ~ (globalSampleRate (world turning_gyro) == 0)%Q)
    by (vm_compute; intros H; discriminate H).
  assert (H6 : (0 < 0.007)%Q) by reflexivity.
  split; [repeat split; assumption|].
  exact (setSensitivity_double_halves turning_gyro 0 turning_port 500000 0.000%Q
           0.007%Q H1 H2 H3 H4 H5 H6).
Defined.

(** ** The concrete cases on binary64 *)

(** The snapshot of the spec's example. *)
Lemma binary64_calibrate_example :
  Binary64.calibrate 500000000 1000 = Some (500000, 0%float).
Proof. vm_compute. reflexivity. Qed.

(** The negative mean -1.4: center 0 and offset -1.4, of magnitude above 1. *)
Lemma binary64_calibrate_negative_mean :
  Binary64.calibrate (-14) 10 = Some (0, (-1.4)%float)
  /\ (1 <=? abs (-1.4))%float = true.
Proof. split; vm_compute; reflexivity. Qed.

(** Ties go toward positive infinity. *)
Lemma binary64_calibrate_ties :
  Binary64.calibrate 5 2 = Some (3, (-0.5)%float)
  /\ Binary64.calibrate (-5) 2 = Some (-2, (-0.5)%float)
  /\ Binary64.calibrate (-1) 2 = Some (0, (-0.5)%float).
Proof. repeat split; vm_compute; reflexivity. Qed.

(** No sample: the division raises. *)
Lemma binary64_calibrate_no_sample :
  Binary64.calibrate 500000000 0 = None.
Proof. vm_compute. reflexivity. Qed.

(** The angle of the spec's example, and an empty accumulator. *)
Lemma binary64_getAngle_example :
  Binary64.getAngle 505000000 1010 0 7.6295e-6 0 51200 0.007
  = Some ((505000000 - 1010 * 0) * 1e-9 * 7.6295e-6 * 1 / (51200 * 0.007))%float
  /\ Binary64.getAngle 505000000 1010 0 7.6295e-6 0 51200 0.007
     = Some 1.0750272042410712e-08%float
  /\ Binary64.getAngle 0 0 0.25 7.6295e-6 0 51200 0.007 = Some 0%float.
Proof. repeat split; vm_compute; reflexivity. Qed.

(** Doubling the sensitivity halves the rate. *)
Lemma binary64_getRate_halves :
  exists rate1 rate2,
    Binary64.getRate 2048 1000 0.25 7.6295e-6 10 0.007 = Some rate1
    /\ Binary64.getRate 2048 1000 0.25 7.6295e-6 10 (2 * 0.007) = Some rate2
    /\ (rate2 =? rate1 / 2)%float = true.
Proof. do 2 eexists. repeat split; vm_compute; reflexivity. Qed.

(** The negative mean -2.2: center -1, not the nearest integer -2. *)
Lemma binary64_calibrate_not_nearest :
  Binary64.calibrate (-22) 10 = Some (-1, (-1.2000000000000002)%float).
Proof. vm_compute. reflexivity. Qed.

(** The deadband of the bench port (LSB weight 7.6295e-6, 10 oversample
    bits): 0 for 0 V; for 1 mV the truncation of the exact product; for 11 mV
    one more than the truncation of the exact product, because the binary64
    product is rounded up before [int(...)] truncates it; a zero LSB weight
    raises. *)
Lemma binary64_setDeadband_rounding :
  Binary64.setDeadband 0 7.6295e-6 10 = Some 0
  /\ Binary64.setDeadband 0.001 7.6295e-6 10 = Some 134215872599777
  /\ Py.int_of_float (0.001 * 1e9 / 7.6295e-6 * Py.float_of_int (Py.shl1 10))%Q
     = 134215872599777
  /\ Binary64.setDeadband 0.011 7.6295e-6 10 = Some 1476374598597549
  /\ Py.int_of_float (0.011 * 1e9 / 7.6295e-6 * Py.float_of_int (Py.shl1 10))%Q
     = 1476374598597548
  /\ Binary64.setDeadband 0.011 0 10 = None.
Proof. repeat split; vm_compute; reflexivity. Qed.

(** Two accumulator outputs and their sum, with the offset 0.25: the angles
    are ordered as the accumulated values are, and the angle of the sum is
    the sum of the angles up to the last bit only. *)
Lemma binary64_getAngle_sum :
  exists x1 x2 x12,
    Binary64.getAngle 5000000 10 0.25 7.6295e-6 0 51200 0.007 = Some x1
    /\ Binary64.getAngle (-200) 7 0.25 7.6295e-6 0 51200 0.007 = Some x2
    /\ Binary64.getAngle (5000000 + -200) (10 + 7) 0.25 7.6295e-6 0 51200 0.007
       = Some x12
    /\ x12 = 1.064339890475028e-10%float
    /\ (x1 + x2)%float = 1.0643398904750281e-10%float
    /\ (x2 <=? 0)%float = true
    /\ (0 <=? x1)%float = true
    /\ (x2 <=? x1)%float = true.
Proof. do 3 eexists. repeat split; vm_compute; reflexivity. Qed.

(** An offset of 1e-11 is absorbed by the center 500000: on the averaged
    value 500000 the rate is 0.0, and it has the sign of the distance to the
    center one count above and one count below. *)
Lemma binary64_getRate_absorbed_offset :
  exists above below,
    Binary64.getRate 500000 500000 1e-11 7.6295e-6 10 0.007 = Some 0%float
    /\ Binary64.getRate 500001 500000 1e-11 7.6295e-6 10 0.007 = Some above
    /\ Binary64.getRate 499999 500000 1e-11 7.6295e-6 10 0.007 = Some below
    /\ (0 <? above)%float = true
    /\ (below <? 0)%float = true.
Proof. do 2 eexists. repeat split; vm_compute; reflexivity. Qed.

(** * Further properties of the driver *)

(** ** Truncation *)

(** [int(x)] is monotone. *)
Lemma int_of_float_le_mono (x y : Q) :
  (x <= y)%Q -> Py.int_of_float x <= Py.int_of_float y.
Proof.
  destruct x as [a b], y as [c d]. unfold Qle, Py.int_of_float. cbn [Qnum Qden].
  intros H.
  rewrite <- (Z.quot_mul_cancel_r a (Z.pos b) (Z.pos d)) by lia.
  rewrite <- (Z.quot_mul_cancel_r c (Z.pos d) (Z.pos b)) by lia.
  rewrite (Z.mul_comm (Z.pos d) (Z.pos b)).
  apply Z.quot_le_mono; lia.
Qed.

(** On a number that is not negative [int(x)] is the floor. *)
Lemma int_of_float_floor (x : Q) :
  (0 <= x)%Q ->
  0 <= Py.int_of_float x
  /\ (inject_Z (Py.int_of_float x) <= x)%Q
  /\ (x < inject_Z (Py.int_of_float x) + 1)%Q.
Proof.
  destruct x as [a b]. unfold Qle, Qlt, Py.int_of_float, inject_Z, Qplus.
  cbn [Qnum Qden]. intros H.
  assert (Ha : 0 <= a) by lia.
  rewrite Z.quot_div_nonneg by lia.
  pose proof (Z.mul_div_le a (Z.pos b) ltac:(lia)).
  pose proof (Z.mul_succ_div_gt a (Z.pos b) ltac:(lia)).
  pose proof (Z.div_pos a (Z.pos b) Ha ltac:(lia)).
  repeat split; nia.
Qed.

(** [setDeadband] on an attached driver whose channel has a non-zero LSB
    weight. *)
Lemma setDeadband_ok (s : State) (r : Z) (a : AnalogInput) (volts : Q) :
  analog (self s) = Some r ->
  channels (world s) !! r = Some a ->
  ~ (LSBWeight a == 0)%Q ->
  let d := Py.int_of_float
             (volts * 1e9 / LSBWeight a
              * Py.float_of_int (Py.shl1 (oversampleBits a)))%Q in
  setDeadband volts s
  = Ok tt (on_world (fun w =>
             log_call r (Some (SetAccumulatorDeadband d))
               (set_channels (insert r (set_accumulatorDeadband d a)) w)) s).
Proof.
  intros Hr Ha Hlsb d. apply Qeq_bool_nonzero in Hlsb.
  run. reflexivity.
Qed.

Lemma setDeadband_zero_lsb (s : State) (r : Z) (a : AnalogInput) (volts : Q) :
  analog (self s) = Some r ->
  channels (world s) !! r = Some a ->
  (LSBWeight a == 0)%Q ->
  setDeadband volts s = Raise Py.ZeroDivisionError s.
Proof.
  intros Hr Ha Hlsb. apply Qeq_eq_bool in Hlsb.
  run. reflexivity.
Qed.

Lemma setDeadband_released (s : State) (volts : Q) :
  analog (self s) = None -> setDeadband volts s = Ok tt s.
Proof. intros H. run. reflexivity. Qed.

(** *** Equality of states, field by field *)

Lemma gyro_eq (g1 g2 : AnalogGyro) :
  oid g1 = oid g2 -> analog g1 = analog g2 ->
  channelAllocated g1 = channelAllocated g2 ->
  voltsPerDegreePerSecond g1 = voltsPerDegreePerSecond g2 ->
  center g1 = center g2 -> offset g1 = offset g2 ->
  pidSource g1 = pidSource g2 ->
  g1 = g2.
Proof. destruct g1, g2. cbn. intros. subst. reflexivity. Qed.

Lemma world_eq (w1 w2 : World) :
  channels w1 = channels w2 -> globalSampleRate w1 = globalSampleRate w2 ->
  simulation w1 = simulation w2 -> clock w1 = clock w2 ->
  usageReports w1 = usageReports w2 -> liveWindow w1 = liveWindow w2 ->
  calls w1 = calls w2 ->
  w1 = w2.
Proof. destruct w1, w2. cbn. intros. subst. reflexivity. Qed.

Lemma state_eq (s1 s2 : State) :
  self s1 = self s2 -> world s1 = world s2 -> s1 = s2.
Proof. destruct s1, s2. cbn. intros. subst. reflexivity. Qed.

Ltac same_state :=
  apply state_eq; [apply gyro_eq | apply world_eq];
  record_simpl; use_facts;
  rewrite ?insert_insert_eq, ?deadband_zero; reflexivity.

(** *** The constructor, state by state *)

Lemma init_calibrates_from chan c o smp s a :
  channels (world s) !! channel_ref chan = Some a ->
  ~ (LSBWeight a == 0)%Q ->
  c = None \/ o = None ->
  __init__ chan c o smp s = calibrate smp (after_setup chan a s).
Proof.
  intros Ha Hlsb Hnone. apply Qeq_bool_nonzero in Hlsb.
  assert (Hbranch : forall (k1 : Py.num -> Py.num -> M State unit) k2,
             match c, o with Some x, Some y => k1 x y | _, _ => k2 end = k2).
  { intros k1 k2. destruct Hnone; subst; [reflexivity | destruct c; reflexivity]. }
  unfold after_setup.
  init_cases s chan; rewrite Hbranch; f_equal; same_state.
Qed.

Lemma init_presets_to chan pc po smp s a :
  channels (world s) !! channel_ref chan = Some a ->
  ~ (LSBWeight a == 0)%Q ->
  __init__ chan (Some pc) (Some po) smp s
  = Ok tt (adopted chan a (Py.int pc) (Py.float po) s).
Proof.
  intros Ha Hlsb. apply Qeq_bool_nonzero in Hlsb.
  unfold adopted, after_setup.
  init_cases s chan; f_equal; same_state.
Qed.

(** With a zero LSB weight [setDeadband(0.0)] raises inside the constructor. *)
Lemma init_zero_lsb chan c o smp s a :
  channels (world s) !! channel_ref chan = Some a ->
  (LSBWeight a == 0)%Q ->
  exists s',
    __init__ chan c o smp s = Raise Py.ZeroDivisionError s'
    /\ analog (self s') = Some (channel_ref chan)
    /\ center (self s') = center (self s)
    /\ offset (self s') = offset (self s)
    /\ usageReports (world s') = usageReports (world s)
    /\ liveWindow (world s') = liveWindow (world s)
    /\ channels (world s') !! channel_ref chan
       = Some (set_oversampleBits kOversampleBits
                 (set_averageBits kAverageBits (claimed chan a))).
Proof.
  intros Ha Hlsb. apply Qeq_eq_bool in Hlsb.
  init_cases s chan;
    (eexists; split; [reflexivity|]); record_simpl;
    rewrite ?lookup_insert_eq; repeat split.
Qed.

(** ** The deadband *)

Lemma scale_nonneg (volts lsb : Q) (k : Z) :
  (0 <= volts)%Q -> (0 < lsb)%Q -> 0 < k ->
  (0 <= volts * 1e9 / lsb * Py.float_of_int k)%Q.
Proof.
  intros Hv Hl Hk.
  assert (Hk' : (0 < Py.float_of_int k)%Q).
  { unfold Py.float_of_int. change 0%Q with (inject_Z 0). rewrite <- Zlt_Qlt. exact Hk. }
  assert (Hi : (0 < / lsb)%Q) by (apply Qinv_lt_0_compat; exact Hl).
  assert (H9 : (0 < 1e9)%Q) by reflexivity.
  unfold Qdiv.
  apply Qmult_le_0_compat; [|apply Qlt_le_weak; exact Hk'].
  apply Qmult_le_0_compat; [|apply Qlt_le_weak; exact Hi].
  apply Qmult_le_0_compat; [exact Hv | apply Qlt_le_weak; exact H9].
Qed.

Lemma scale_le_mono (v1 v2 lsb : Q) (k : Z) :
  (v1 <= v2)%Q -> (0 < lsb)%Q -> 0 < k ->
  (v1 * 1e9 / lsb * Py.float_of_int k <= v2 * 1e9 / lsb * Py.float_of_int k)%Q.
Proof.
  intros Hv Hl Hk.
  assert (Hk' : (0 < Py.float_of_int k)%Q).
  { unfold Py.float_of_int. change 0%Q with (inject_Z 0). rewrite <- Zlt_Qlt. exact Hk. }
  assert (Hi : (0 < / lsb)%Q) by (apply Qinv_lt_0_compat; exact Hl).
  assert (H9 : (0 < 1e9)%Q) by reflexivity.
  unfold Qdiv.
  apply Qmult_le_compat_r; [|apply Qlt_le_weak; exact Hk'].
  apply Qmult_le_compat_r; [|apply Qlt_le_weak; exact Hi].
  apply Qmult_le_compat_r; [exact Hv | apply Qlt_le_weak; exact H9].
Qed.

Lemma Qpos_nonzero (x : Q) : (0 < x)%Q -> ~ (x == 0)%Q.
Proof. intros H E. rewrite E in H. discriminate H. Qed.

(** X1: [setDeadband] on a driver that is not released, over a channel
    with a non-zero LSB weight, returns and changes nothing but the deadband
    of that channel, by one call on it: the driver object, the other fields
    of the channel, every other channel, the sample rate and the LiveWindow
    registry stay as they were.  The deadband pushed is 0 for a voltage equal
    to zero, and it is not negative for a voltage that is not negative when
    the LSB weight is positive. *)
Theorem setDeadband_frame
    (s : State) (r : Z) (a : AnalogInput) (volts : Q) :
  analog (self s) = Some r ->
  channels (world s) !! r = Some a ->
  ~ (LSBWeight a == 0)%Q ->
  exists s' d,
    setDeadband volts s = Ok tt s'
    /\ self s' = self s
    /\ channels (world s') !! r = Some (set_accumulatorDeadband d a)
    /\ (forall r', r' <> r -> channels (world s') !! r' = channels (world s) !! r')
    /\ calls (world s') = (r, SetAccumulatorDeadband d) :: calls (world s)
    /\ globalSampleRate (world s') = globalSampleRate (world s)
    /\ liveWindow (world s') = liveWindow (world s)
    /\ ((volts == 0)%Q -> d = 0)
    /\ ((0 < LSBWeight a)%Q -> (0 <= volts)%Q -> 0 <= d).
Proof.
  intros Hr Ha Hlsb.
  rewrite (setDeadband_ok s r a volts Hr Ha Hlsb).
  eexists. eexists. split; [reflexivity|]. record_simpl.
  split; [reflexivity|]. split; [apply lookup_insert_eq|].
  split; [intros r' Hne; apply lookup_insert_ne; congruence|].
  split; [reflexivity|]. split; [reflexivity|]. split; [reflexivity|].
  split.
  - intros Hv. apply int_of_float_zero. rewrite Hv. unfold Qdiv. ring.
  - intros Hpos Hv. apply int_of_float_floor.
    apply scale_nonneg; [exact Hv | exact Hpos | apply shl1_pos].
Qed.

(** One millivolt on the calibrated bench driver. *)
Lemma setDeadband_frame_witness :
  (analog (self calibrated_gyro) = Some 0
   /\ channels (world calibrated_gyro) !! 0 = Some calibrated_port
   /\ ~ (LSBWeight calibrated_port == 0)%Q)
  /\ exists s' d,
       setDeadband 0.001 calibrated_gyro = Ok tt s'
       /\ self s' = self calibrated_gyro
       /\ channels (world s') !! 0 = Some (set_accumulatorDeadband d calibrated_port)
       /\ (forall r', r' <> 0 ->
             channels (world s') !! r' = channels (world calibrated_gyro) !! r')
       /\ calls (world s')
          = (0, SetAccumulatorDeadband d) :: calls (world calibrated_gyro)
       /\ globalSampleRate (world s') = globalSampleRate (world calibrated_gyro)
       /\ liveWindow (world s') = liveWindow (world calibrated_gyro)
       /\ ((0.001 == 0)%Q -> d = 0)
       /\ ((0 < LSBWeight calibrated_port)%Q -> (0 <= 0.001)%Q -> 0 <= d).
Proof.
  assert (H1 : analog (self calibrated_gyro) = Some 0) by (vm_compute; reflexivity).
  assert (H2 : channels (world calibrated_gyro) !! 0 = Some calibrated_port)
    by (vm_compute; reflexivity).
  assert (H3 : ~ (LSBWeight calibrated_port == 0)%Q)
    by (vm_compute; intros H; discriminate H).
  split; [repeat split; assumption|].
  exact (setDeadband_frame calibrated_gyro 0 calibrated_port 0.001 H1 H2 H3).
Defined.

(** X2: on a channel with a positive LSB weight the deadband pushed by
    [setDeadband] does not decrease when the voltage grows. *)
Theorem setDeadband_monotone
    (s : State) (r : Z) (a : AnalogInput) (volts1 volts2 : Q) :
  analog (self s) = Some r ->
  channels (world s) !! r = Some a ->
  (0 < LSBWeight a)%Q ->
  (volts1 <= volts2)%Q ->
  exists s1 s2 a1 a2,
    setDeadband volts1 s = Ok tt s1
    /\ setDeadband volts2 s = Ok tt s2
    /\ channels (world s1) !! r = Some a1
    /\ channels (world s2) !! r = Some a2
    /\ accumulatorDeadband a1 <= accumulatorDeadband a2.
Proof.
  intros Hr Ha Hlsb Hv.
  rewrite (setDeadband_ok s r a volts1 Hr Ha (Qpos_nonzero _ Hlsb)).
  rewrite (setDeadband_ok s r a volts2 Hr Ha (Qpos_nonzero _ Hlsb)).
  do 4 eexists. split; [reflexivity|]. split; [reflexivity|]. record_simpl.
  split; [apply lookup_insert_eq|]. split; [apply lookup_insert_eq|].
  record_simpl. apply int_of_float_le_mono.
  apply scale_le_mono; [exact Hv | exact Hlsb | apply shl1_pos].
Qed.

Lemma setDeadband_monotone_witness :
  (analog (self calibrated_gyro) = Some 0
   /\ channels (world calibrated_gyro) !! 0 = Some calibrated_port
   /\ (0 < LSBWeight calibrated_port)%Q
   /\ (-0.002 <= 0.001)%Q)
  /\ exists s1 s2 a1 a2,
       setDeadband (-0.002) calibrated_gyro = Ok tt s1
       /\ setDeadband 0.001 calibrated_gyro = Ok tt s2
       /\ channels (world s1) !! 0 = Some a1
       /\ channels (world s2) !! 0 = Some a2
       /\ accumulatorDeadband a1 <= accumulatorDeadband a2.
Proof.
  assert (H1 : analog (self calibrated_gyro) = Some 0) by (vm_compute; reflexivity).
  assert (H2 : channels (world calibrated_gyro) !! 0 = Some calibrated_port)
    by (vm_compute; reflexivity).
  assert (H3 : (0 < LSBWeight calibrated_port)%Q) by reflexivity.
  assert (H4 : (-0.002 <= 0.001)%Q) by (intros H; discriminate H).
  split; [repeat split; assumption|].
  exact (setDeadband_monotone calibrated_gyro 0 calibrated_port (-0.002) 0.001
           H1 H2 H3 H4).
Defined.

(** X3: on a channel whose LSB weight is zero [setDeadband] raises
    [ZeroDivisionError] and changes nothing; the constructor, which calls
    [setDeadband(0.0)], then raises too, whatever the presets, before the
    usage report and the registration with LiveWindow. *)
Theorem setDeadband_zero_lsb_raises
    (s : State) (r : Z) (a : AnalogInput) (volts : Q) :
  analog (self s) = Some r ->
  channels (world s) !! r = Some a ->
  (LSBWeight a == 0)%Q ->
  setDeadband volts s = Raise Py.ZeroDivisionError s
  /\ (forall chan c o smp s0,
        channels (world s0) !! channel_ref chan = Some a ->
        exists s',
          __init__ chan c o smp s0 = Raise Py.ZeroDivisionError s'
          /\ usageReports (world s') = usageReports (world s0)
          /\ liveWindow (world s') = liveWindow (world s0)
          /\ center (self s') = center (self s0)
          /\ offset (self s') = offset (self s0)).
Proof.
  intros Hr Ha Hlsb. split.
  - apply (setDeadband_zero_lsb s r a volts Hr Ha Hlsb).
  - intros chan c o smp s0 Ha0.
    destruct (init_zero_lsb chan c o smp s0 a Ha0 Hlsb)
      as (s' & Hrun & _ & Hc & Ho & Hu & Hl & _).
    exists s'. repeat split; assumption.
Qed.

Lemma setDeadband_zero_lsb_raises_witness :
  (analog (self dead_gyro) = Some 1
   /\ channels (world dead_gyro) !! 1 = Some dead_port
   /\ (LSBWeight dead_port == 0)%Q)
  /\ setDeadband 0.001 dead_gyro = Raise Py.ZeroDivisionError dead_gyro
  /\ (forall chan c o smp s0,
        channels (world s0) !! channel_ref chan = Some dead_port ->
        exists s',
          __init__ chan c o smp s0 = Raise Py.ZeroDivisionError s'
          /\ usageReports (world s') = usageReports (world s0)
          /\ liveWindow (world s') = liveWindow (world s0)
          /\ center (self s') = center (self s0)
          /\ offset (self s') = offset (self s0)).
Proof.
  assert (H1 : analog (self dead_gyro) = Some 1) by reflexivity.
  assert (H2 : channels (world dead_gyro) !! 1 = Some dead_port)
    by (vm_compute; reflexivity).
  assert (H3 : (LSBWeight dead_port == 0)%Q) by reflexivity.
  split; [repeat split; assumption|].
  exact (setDeadband_zero_lsb_raises dead_gyro 1 dead_port 0.001 H1 H2 H3).
Defined.

(** ** More on calibration *)

(** X4: for every snapshot with count > 0 the offset that [calibrate]
    stores lies in the interval (-3/2, 1/2), and it is at least -1/2 when
    the mean is at least -1/2 (2*value + count >= 0). *)
Theorem calibrate_offset_range
    (s : State) (r : Z) (a : AnalogInput) (value count : Z) :
  analog (self s) = Some r ->
  channels (world s) !! r = Some a ->
  0 < count ->
  exists s' off,
    calibrate (value, count) s = Ok tt s'
    /\ offset (self s') = Some off
    /\ (- (3 # 2) < off)%Q
    /\ (off < 1 # 2)%Q
    /\ (0 <= 2 * value + count -> (- (1 # 2) <= off)%Q).
Proof.
  intros Hr Ha Hc.
  destruct (calibrate_ok s r a Hr Ha value count ltac:(lia))
    as (s' & Hrun & Hself & _).
  exists s'. eexists. split; [exact Hrun|]. rewrite Hself. record_simpl.
  split; [reflexivity|].
  apply (offset_range value count).
  - exact Hc.
  - apply int_of_mean_plus_half. exact Hc.
  - apply mean_times_count. lia.
Qed.

(** A mean of -1.4, where the offset is below -1. *)
Lemma calibrate_offset_range_witness :
  (analog (self calibrated_gyro) = Some 0
   /\ channels (world calibrated_gyro) !! 0 = Some calibrated_port
   /\ 0 < 10)
  /\ exists s' off,
       calibrate (-14, 10) calibrated_gyro = Ok tt s'
       /\ offset (self s') = Some off
       /\ (- (3 # 2) < off)%Q
       /\ (off < 1 # 2)%Q
       /\ (0 <= 2 * -14 + 10 -> (- (1 # 2) <= off)%Q).
Proof.
  assert (H1 : analog (self calibrated_gyro) = Some 0) by (vm_compute; reflexivity).
  assert (H2 : channels (world calibrated_gyro) !! 0 = Some calibrated_port)
    by (vm_compute; reflexivity).
  assert (H3 : 0 < 10) by lia.
  split; [repeat split; assumption|].
  exact (calibrate_offset_range calibrated_gyro 0 calibrated_port (-14) 10 H1 H2 H3).
Defined.

(** X5: when the accumulated value is an exact multiple k * count of the
    count, with k >= 0 and count > 0, [calibrate] stores center k and an
    offset equal to zero. *)
Theorem calibrate_exact_mean
    (s : State) (r : Z) (a : AnalogInput) (k count : Z) :
  analog (self s) = Some r ->
  channels (world s) !! r = Some a ->
  0 < count ->
  0 <= k ->
  exists s' off,
    calibrate (k * count, count) s = Ok tt s'
    /\ center (self s') = Some k
    /\ offset (self s') = Some off
    /\ (off == 0)%Q.
Proof.
  intros Hr Ha Hc Hk.
  destruct (calibrate_ok s r a Hr Ha (k * count) count ltac:(lia))
    as (s' & Hrun & Hself & _).
  exists s'. eexists. split; [exact Hrun|]. rewrite Hself. record_simpl.
  rewrite int_of_mean_plus_half by exact Hc.
  assert (Hq : (2 * (k * count) + count) ÷ (2 * count) = k).
  { rewrite Z.quot_div_nonneg by nia.
    symmetry. apply (Z.div_unique _ _ k count); nia. }
  rewrite Hq. split; [reflexivity|]. split; [reflexivity|].
  unfold Py.float_of_int. rewrite inject_Z_mult. field.
  apply (float_of_int_nonzero count). lia.
Qed.

Lemma calibrate_exact_mean_witness :
  (analog (self calibrated_gyro) = Some 0
   /\ channels (world calibrated_gyro) !! 0 = Some calibrated_port
   /\ 0 < 1000
   /\ 0 <= 500000)
  /\ exists s' off,
       calibrate (500000 * 1000, 1000) calibrated_gyro = Ok tt s'
       /\ center (self s') = Some 500000
       /\ offset (self s') = Some off
       /\ (off == 0)%Q.
Proof.
  assert (H1 : analog (self calibrated_gyro) = Some 0) by (vm_compute; reflexivity).
  assert (H2 : channels (world calibrated_gyro) !! 0 = Some calibrated_port)
    by (vm_compute; reflexivity).
  assert (H3 : 0 < 1000) by lia.
  assert (H4 : 0 <= 500000) by lia.
  split; [repeat split; assumption|].
  exact (calibrate_exact_mean calibrated_gyro 0 calibrated_port 500000 1000
           H1 H2 H3 H4).
Defined.

(** The clock after [calibrate], whatever the snapshot. *)
Lemma calibrate_clock (s : State) (r : Z) (a : AnalogInput) (smp : Z * Z) :
  analog (self s) = Some r ->
  channels (world s) !! r = Some a ->
  clock (world (final (calibrate smp s)))
  = if simulation (world s) then clock (world s)
    else (clock (world s) + kCalibrationSampleTime)%Q.
Proof.
  intros Hr Ha. destruct smp as [v c].
  destruct (simulation (world s)) eqn:Hsim;
    destruct (Qeq_bool (Py.float_of_int c) 0) eqn:Hz;
    run; reflexivity.
Qed.

(** X6: [calibrate] blocks for the calibration sample time, 5 seconds, on
    real hardware and does not wait in simulation, whatever the snapshot
    (also when the division then raises). *)
Theorem calibrate_waits
    (s : State) (r : Z) (a : AnalogInput) (smp : Z * Z) :
  analog (self s) = Some r ->
  channels (world s) !! r = Some a ->
  (simulation (world s) = true ->
   clock (world (final (calibrate smp s))) = clock (world s))
  /\ (simulation (world s) = false ->
      (clock (world (final (calibrate smp s))) == clock (world s) + 5)%Q).
Proof.
  intros Hr Ha. rewrite (calibrate_clock s r a smp Hr Ha).
  split; intros ->; [reflexivity|].
  unfold kCalibrationSampleTime. 
  apply Qplus_comp; reflexivity.
Qed.

Lemma calibrate_waits_witness :
  (analog (self robot_gyro) = Some 0
   /\ channels (world robot_gyro) !! 0 = Some calibrated_port)
  /\ simulation (world robot_gyro) = false
  /\ (simulation (world robot_gyro) = true ->
      clock (world (final (calibrate (500000000, 1000) robot_gyro)))
      = clock (world robot_gyro))
  /\ (simulation (world robot_gyro) = false ->
      (clock (world (final (calibrate (500000000, 1000)%Z robot_gyro)))
       == clock (world robot_gyro) + 5)%Q).
Proof.
  assert (H1 : analog (self robot_gyro) = Some 0) by (vm_compute; reflexivity).
  assert (H2 : channels (world robot_gyro) !! 0 = Some calibrated_port)
    by (vm_compute; reflexivity).
  split; [split; assumption|].
  split; [vm_compute; reflexivity|].
  exact (calibrate_waits robot_gyro 0 calibrated_port (500000000, 1000) H1 H2).
Defined.

(** [calibrate] on a snapshot with a non-zero count, state to state. *)
Lemma calibrate_ok_state (s : State) (r : Z) (a : AnalogInput) :
  analog (self s) = Some r ->
  channels (world s) !! r = Some a ->
  forall value count : Z,
    count <> 0 ->
    calibrate (value, count) s = Ok tt (calibrated r a value count s).
Proof.
  intros Hr Ha value count Hc.
  pose proof (Qeq_bool_nonzero _ (float_of_int_nonzero count Hc)) as Hz.
  unfold calibrated.
  destruct (simulation (world s)) eqn:Hsim; run; f_equal; same_state.
Qed.

(** ** More on construction *)

(** X7: the constructor blocks for the settle delay, 1 second, on real
    hardware, and for 5 seconds more when it calibrates; in simulation it
    does not wait at all. *)
Theorem init_waits
    (chan : ChannelArg) (c o : option Py.num) (smp : Z * Z)
    (s : State) (a : AnalogInput) :
  channels (world s) !! channel_ref chan = Some a ->
  ~ (LSBWeight a == 0)%Q ->
  let s' := final (__init__ chan c o smp s) in
  (simulation (world s) = true -> clock (world s') = clock (world s))
  /\ (simulation (world s) = false ->
      (forall pc po, c = Some pc -> o = Some po ->
         (clock (world s') == clock (world s) + 1)%Q)
      /\ (c = None \/ o = None ->
          (clock (world s') == clock (world s) + 6)%Q)).
Proof.
  intros Ha Hlsb s'. subst s'.
  assert (Hcases : (c = None \/ o = None) \/ exists pc po, c = Some pc /\ o = Some po).
  { destruct c, o; eauto. }
  destruct Hcases as [Hnone | (pc & po & -> & ->)].
  - rewrite (init_calibrates_from chan c o smp s a Ha Hlsb Hnone).
    rewrite (calibrate_clock (after_setup chan a s) (channel_ref chan)
               (configured (claimed chan a)) smp eq_refl (lookup_insert_eq _ _ _)).
    cbn [after_setup world simulation clock].
    split; intros ->; [reflexivity|]. split.
    + intros pc po -> ->. destruct Hnone; discriminate.
    + intros _. unfold kCalibrationSampleTime.
      rewrite <- Qplus_assoc. apply Qplus_comp; reflexivity.
  - rewrite (init_presets_to chan pc po smp s a Ha Hlsb).
    cbn [final adopted after_setup world simulation clock].
    split; intros ->; [reflexivity|]. split.
    + intros _ _ _ _. apply Qplus_comp; reflexivity.
    + intros [H|H]; discriminate.
Qed.

Lemma init_waits_witness :
  (channels (world robot) !! channel_ref (Index 0) = Some port0
   /\ ~ (LSBWeight port0 == 0)%Q)
  /\ simulation (world robot) = false
  /\ (let s' := final (__init__ (Index 0) None None (500000000, 1000) robot) in
      (simulation (world robot) = true -> clock (world s') = clock (world robot))
      /\ (simulation (world robot) = false ->
          (forall pc po, @None Py.num = Some pc -> @None Py.num = Some po ->
             (clock (world s') == clock (world robot) + 1)%Q)
          /\ (@None Py.num = None \/ @None Py.num = None ->
              (clock (world s') == clock (world robot) + 6)%Q))).
Proof.
  assert (H1 : channels (world robot) !! channel_ref (Index 0) = Some port0)
    by (vm_compute; reflexivity).
  assert (H2 : ~ (LSBWeight port0 == 0)%Q)
    by (vm_compute; intros H; discriminate H).
  split; [split; assumption|].
  split; [reflexivity|].
  exact (init_waits (Index 0) None None (500000000, 1000) robot port0 H1 H2).
Defined.

(** X8: a construction that returns leaves the driver attached to its
    channel with sensitivity 0.007 and ownership as the first argument says;
    the channel has 0 average bits, 10 oversample bits, deadband 0, an empty
    accumulator and the driver's center as its accumulator center; the global
    sample rate is 51200; the driver is registered with LiveWindow under its
    channel number, and one usage report was made. *)
Theorem init_configures
    (chan : ChannelArg) (c o : option Py.num) (value count : Z)
    (s : State) (a : AnalogInput) :
  channels (world s) !! channel_ref chan = Some a ->
  ~ (LSBWeight a == 0)%Q ->
  (c = None \/ o = None -> count <> 0) ->
  exists s' a' ctr off,
    __init__ chan c o (value, count) s = Ok tt s'
    /\ analog (self s') = Some (channel_ref chan)
    /\ channelAllocated (self s') = owns chan
    /\ voltsPerDegreePerSecond (self s') = kDefaultVoltsPerDegreePerSecond
    /\ center (self s') = Some ctr
    /\ offset (self s') = Some off
    /\ channels (world s') !! channel_ref chan = Some a'
    /\ averageBits a' = 0%N
    /\ oversampleBits a' = 10%N
    /\ accumulatorDeadband a' = 0
    /\ accumulator a' = (0, 0)
    /\ accumulatorCenter a' = ctr
    /\ LSBWeight a' = LSBWeight a
    /\ averageValue a' = averageValue a
    /\ (globalSampleRate (world s') == 51200)%Q
    /\ liveWindow (world s') !! oid (self s) = Some (channel a)
    /\ usageReports (world s') = channel a :: usageReports (world s).
Proof.
  intros Ha Hlsb Hcount.
  assert (Hcases : (c = None \/ o = None) \/ exists pc po, c = Some pc /\ o = Some po).
  { destruct c, o; eauto. }
  destruct Hcases as [Hnone | (pc & po & -> & ->)].
  - rewrite (init_calibrates_from chan c o (value, count) s a Ha Hlsb Hnone).
    pose proof (calibrate_ok_state (after_setup chan a s) (channel_ref chan)
                  (configured (claimed chan a)) eq_refl (lookup_insert_eq _ _ _)
                  value count (Hcount Hnone)) as Hrun.
    cbv zeta in Hrun. rewrite Hrun.
    do 4 eexists. split; [reflexivity|]. cbn [after_setup calibrated self world
      analog channelAllocated voltsPerDegreePerSecond center offset channels
      globalSampleRate liveWindow usageReports set_center set_offset].
    rewrite lookup_insert_eq, lookup_insert_eq.
    repeat split; try reflexivity; destruct chan; reflexivity.
  - rewrite (init_presets_to chan pc po (value, count) s a Ha Hlsb).
    do 4 eexists. split; [reflexivity|]. cbn [adopted after_setup self world
      analog channelAllocated voltsPerDegreePerSecond center offset channels
      globalSampleRate liveWindow usageReports set_center set_offset].
    rewrite lookup_insert_eq, lookup_insert_eq.
    repeat split; try reflexivity; destruct chan; reflexivity.
Qed.

Lemma init_configures_witness :
  (channels (world boot) !! channel_ref (Index 0) = Some port0
   /\ ~ (LSBWeight port0 == 0)%Q
   /\ (@None Py.num = None \/ @None Py.num = None -> 1000 <> 0))
  /\ exists s' a' ctr off,
       __init__ (Index 0) None None (500000000, 1000) boot = Ok tt s'
       /\ analog (self s') = Some (channel_ref (Index 0))
       /\ channelAllocated (self s') = owns (Index 0)
       /\ voltsPerDegreePerSecond (self s') = kDefaultVoltsPerDegreePerSecond
       /\ center (self s') = Some ctr
       /\ offset (self s') = Some off
       /\ channels (world s') !! channel_ref (Index 0) = Some a'
       /\ averageBits a' = 0%N
       /\ oversampleBits a' = 10%N
       /\ accumulatorDeadband a' = 0
       /\ accumulator a' = (0, 0)
       /\ accumulatorCenter a' = ctr
       /\ LSBWeight a' = LSBWeight port0
       /\ averageValue a' = averageValue port0
       /\ (globalSampleRate (world s') == 51200)%Q
       /\ liveWindow (world s') !! oid (self boot) = Some (channel port0)
       /\ usageReports (world s') = channel port0 :: usageReports (world boot).
Proof.
  assert (H1 : channels (world boot) !! channel_ref (Index 0) = Some port0)
    by (vm_compute; reflexivity).
  assert (H2 : ~ (LSBWeight port0 == 0)%Q)
    by (vm_compute; intros H; discriminate H).
  assert (H3 : @None Py.num = None \/ @None Py.num = None -> 1000 <> 0)
    by (intros _; lia).
  split; [repeat split; assumption|].
  exact (init_configures (Index 0) None None 500000000 1000 boot port0 H1 H2 H3).
Defined.

(** X9: on a driver whose construction returned, [getAngle] and [getRate]
    both return without a fault: the angle is zero, and the rate is
    (averageValue - (center + offset)) * 1e-9 * LSBWeight / (1024 * 0.007). *)
Theorem init_then_measures
    (chan : ChannelArg) (c o : option Py.num) (value count : Z)
    (s : State) (a : AnalogInput) :
  channels (world s) !! channel_ref chan = Some a ->
  ~ (LSBWeight a == 0)%Q ->
  (c = None \/ o = None -> count <> 0) ->
  exists s' ctr off angle rate,
    __init__ chan c o (value, count) s = Ok tt s'
    /\ center (self s') = Some ctr
    /\ offset (self s') = Some off
    /\ getAngle s' = Ok angle s'
    /\ (angle == 0)%Q
    /\ getRate s' = Ok rate s'
    /\ (rate == (inject_Z (averageValue a) - (inject_Z ctr + off))
                * 1e-9 * LSBWeight a / (1024 * 0.007))%Q.
Proof.
  intros Ha Hlsb Hcount.
  destruct (init_configures chan c o value count s a Ha Hlsb Hcount)
    as (s' & a' & ctr & off & Hrun & Hr & _ & Hv & Hc & Ho & Ha' & _ & Hos & _
        & Hacc & _ & Hl & Hav & Hrate & _ & _).
  assert (Hv0 : ~ (voltsPerDegreePerSecond (self s') == 0)%Q).
  { rewrite Hv. intros E. discriminate E. }
  assert (Hden : ~ (globalSampleRate (world s') * voltsPerDegreePerSecond (self s')
                    == 0)%Q).
  { rewrite Hrate, Hv. intros E. discriminate E. }
  exists s', ctr, off. do 2 eexists.
  split; [exact Hrun|]. split; [exact Hc|]. split; [exact Ho|].
  split; [exact (getAngle_ok s' _ a' Hr Ha' off Ho Hden)|].
  split.
  { rewrite Hacc. record_simpl. unfold Py.float_of_int.
    change (inject_Z 0) with 0%Q. unfold Qdiv. ring. }
  split; [exact (getRate_ok s' _ a' Hr Ha' ctr off Hc Ho Hv0)|].
  rewrite Hav, Hl, Hos, Hv. unfold Py.float_of_int.
  apply Qmult_comp; [reflexivity|]. apply Qinv_comp.
  apply Qmult_comp; reflexivity.
Qed.

Lemma init_then_measures_witness :
  (channels (world boot) !! channel_ref (Object 0) = Some port0
   /\ ~ (LSBWeight port0 == 0)%Q
   /\ (Some (Py.Int 1000) = None \/ Some (Py.Float 0.25) = None -> 0 <> 0))
  /\ exists s' ctr off angle rate,
       __init__ (Object 0) (Some (Py.Int 1000)) (Some (Py.Float 0.25)) (0, 0) boot
       = Ok tt s'
       /\ center (self s') = Some ctr
       /\ offset (self s') = Some off
       /\ getAngle s' = Ok angle s'
       /\ (angle == 0)%Q
       /\ getRate s' = Ok rate s'
       /\ (rate == (inject_Z (averageValue port0) - (inject_Z ctr + off))
                   * 1e-9 * LSBWeight port0 / (1024 * 0.007))%Q.
Proof.
  assert (H1 : channels (world boot) !! channel_ref (Object 0) = Some port0)
    by (vm_compute; reflexivity).
  assert (H2 : ~ (LSBWeight port0 == 0)%Q)
    by (vm_compute; intros H; discriminate H).
  assert (H3 : Some (Py.Int 1000) = None \/ Some (Py.Float 0.25) = None -> 0 <> 0)
    by (intros [H|H]; discriminate H).
  split; [repeat split; assumption|].
  exact (init_then_measures (Object 0) (Some (Py.Int 1000)) (Some (Py.Float 0.25))
           0 0 boot port0 H1 H2 H3).
Defined.

(** [calibrate] on a snapshot with no sample, state to state. *)
Lemma calibrate_no_sample_state (s : State) (r : Z) (a : AnalogInput) (v : Z) :
  analog (self s) = Some r ->
  channels (world s) !! r = Some a ->
  calibrate (v, 0) s
  = Raise Py.ZeroDivisionError
      (mkState (self s)
         (mkWorld
            (<[r := set_accumulator (fun _ => (v, 0)) (set_accumulatorArmed true a)]>
               (channels (world s)))
            (globalSampleRate (world s)) (simulation (world s))
            (if simulation (world s) then clock (world s)
             else (clock (world s) + kCalibrationSampleTime)%Q)
            (usageReports (world s)) (liveWindow (world s))
            ([(r, ResetAccumulator); (r, InitAccumulator)] ++ calls (world s)))).
Proof.
  intros Hr Ha.
  destruct (simulation (world s)) eqn:Hsim; run; f_equal; same_state.
Qed.

(** X10: when the constructor calibrates and the accumulator gathered no
    sample, [__init__] raises [ZeroDivisionError] after the usage report and
    the registration with LiveWindow were made: the half-built driver stays
    registered and attached to its channel (which stays allocated when the
    constructor allocated it), with [center] and [offset] as they were; if
    [offset] was never assigned, [getAngle] on it raises [AttributeError]. *)
Theorem init_failure_stays_registered
    (chan : ChannelArg) (c o : option Py.num) (value : Z)
    (s : State) (a : AnalogInput) :
  channels (world s) !! channel_ref chan = Some a ->
  ~ (LSBWeight a == 0)%Q ->
  c = None \/ o = None ->
  exists s' a',
    __init__ chan c o (value, 0) s = Raise Py.ZeroDivisionError s'
    /\ liveWindow (world s') !! oid (self s) = Some (channel a)
    /\ usageReports (world s') = channel a :: usageReports (world s)
    /\ analog (self s') = Some (channel_ref chan)
    /\ center (self s') = center (self s)
    /\ offset (self s') = offset (self s)
    /\ channels (world s') !! channel_ref chan = Some a'
    /\ allocated a' = (if owns chan then true else allocated a)
    /\ (offset (self s) = None -> getAngle s' = Raise Py.AttributeError s').
Proof.
  intros Ha Hlsb Hnone.
  rewrite (init_calibrates_from chan c o (value, 0) s a Ha Hlsb Hnone).
  rewrite (calibrate_no_sample_state (after_setup chan a s) (channel_ref chan)
             (configured (claimed chan a)) value eq_refl (lookup_insert_eq _ _ _)).
  do 2 eexists. split; [reflexivity|].
  cbn [after_setup self world analog center offset channels liveWindow usageReports].
  rewrite !lookup_insert_eq.
  repeat split; try reflexivity.
  - destruct chan; reflexivity.
  - intros Hoff. unfold getAngle. exec. reflexivity.
Qed.

Lemma init_failure_stays_registered_witness :
  (channels (world boot) !! channel_ref (Index 0) = Some port0
   /\ ~ (LSBWeight port0 == 0)%Q
   /\ (@None Py.num = None \/ @None Py.num = None))
  /\ exists s' a',
       __init__ (Index 0) None None (500000000, 0) boot
       = Raise Py.ZeroDivisionError s'
       /\ liveWindow (world s') !! oid (self boot) = Some (channel port0)
       /\ usageReports (world s') = channel port0 :: usageReports (world boot)
       /\ analog (self s') = Some (channel_ref (Index 0))
       /\ center (self s') = center (self boot)
       /\ offset (self s') = offset (self boot)
       /\ channels (world s') !! channel_ref (Index 0) = Some a'
       /\ allocated a' = (if owns (Index 0) then true else allocated port0)
       /\ (offset (self boot) = None -> getAngle s' = Raise Py.AttributeError s').
Proof.
  assert (H1 : channels (world boot) !! channel_ref (Index 0) = Some port0)
    by (vm_compute; reflexivity).
  assert (H2 : ~ (LSBWeight port0 == 0)%Q)
    by (vm_compute; intros H; discriminate H).
  assert (H3 : @None Py.num = None \/ @None Py.num = None) by (left; reflexivity).
  split; [repeat split; assumption|].
  exact (init_failure_stays_registered (Index 0) None None 500000000 boot port0
           H1 H2 H3).
Defined.

(** ** The accumulator center follows the stored center *)

Lemma centered_intro (s : State) (r : Z) (a : AnalogInput) (c : Z) :
  analog (self s) = Some r ->
  channels (world s) !! r = Some a ->
  center (self s) = Some c ->
  accumulatorCenter a = c ->
  centered s = true.
Proof.
  intros Hr Ha Hc Hac. unfold centered. rewrite Hr, Ha, Hc.
  apply Z.eqb_eq. exact Hac.
Qed.

Lemma centered_elim (s : State) (r : Z) (a : AnalogInput) :
  analog (self s) = Some r ->
  channels (world s) !! r = Some a ->
  centered s = true ->
  center (self s) = Some (accumulatorCenter a).
Proof.
  intros Hr Ha. unfold centered. rewrite Hr, Ha.
  destruct (center (self s)) as [c|]; [|discriminate].
  intros H. apply Z.eqb_eq in H. rewrite H. reflexivity.
Qed.

(** X11: [calibrate] on a snapshot with a non-zero count leaves the
    accumulator center of the channel equal to the center the driver stores;
    and once they are equal, [calibrate] on any snapshot (also one that makes
    it raise), [reset], [setSensitivity], [setDeadband] and [free] keep them
    so. *)
Theorem center_follows
    (s : State) (r : Z) (a : AnalogInput) :
  analog (self s) = Some r ->
  channels (world s) !! r = Some a ->
  (forall value count, count <> 0 ->
     centered (final (calibrate (value, count) s)) = true)
  /\ (centered s = true ->
      (forall smp, centered (final (calibrate smp s)) = true)
      /\ centered (final (reset s)) = true
      /\ (forall v, centered (final (setSensitivity v s)) = true)
      /\ (forall volts, centered (final (setDeadband volts s)) = true)
      /\ centered (final (free s)) = true).
Proof.
  intros Hr Ha.
  assert (Hcal : forall value count, count <> 0 ->
                   centered (final (calibrate (value, count) s)) = true).
  { intros value count Hc.
    rewrite (calibrate_ok_state s r a Hr Ha value count Hc).
    cbn [final]. eapply centered_intro; cbn [calibrated self world analog channels
      center set_offset set_center];
      [exact Hr | apply lookup_insert_eq | reflexivity | reflexivity]. }
  split; [exact Hcal|]. intros Hcen.
  pose proof (centered_elim s r a Hr Ha Hcen) as Hc.
  split; [|split; [|split; [|split]]].
  - intros [v c]. destruct (Z.eq_dec c 0) as [->|Hne]; [|apply Hcal; exact Hne].
    rewrite (calibrate_no_sample_state s r a v Hr Ha). cbn [final].
    eapply centered_intro; cbn [self world channels];
      [exact Hr | apply lookup_insert_eq | exact Hc | reflexivity].
  - rewrite (reset_ok s r a Hr Ha). cbn [final].
    eapply centered_intro; record_simpl;
      [exact Hr | apply lookup_insert_eq | exact Hc | reflexivity].
  - intros v. unfold setSensitivity, modify. cbn [final].
    eapply centered_intro; record_simpl; [exact Hr | exact Ha | exact Hc | reflexivity].
  - intros volts. destruct (Qeq_dec (LSBWeight a) 0) as [Hz|Hnz].
    + rewrite (setDeadband_zero_lsb s r a volts Hr Ha Hz). exact Hcen.
    + rewrite (setDeadband_ok s r a volts Hr Ha Hnz). cbn [final].
      eapply centered_intro; record_simpl;
        [exact Hr | apply lookup_insert_eq | exact Hc | reflexivity].
  - destruct (channelAllocated (self s)) eqn:Hown.
    + destruct (free_owned s r a Hr Ha Hown) as (s' & -> & Hr' & _).
      cbn [final]. unfold centered. rewrite Hr'. reflexivity.
    + rewrite (free_borrowed s Hown). cbn [final].
      eapply centered_intro; record_simpl; [exact Hr | exact Ha | exact Hc | reflexivity].
Qed.

Lemma center_follows_witness :
  (analog (self turning_preset_gyro) = Some 0
   /\ channels (world turning_preset_gyro) !! 0 = Some turning_preset_port)
  /\ centered turning_preset_gyro = true
  /\ (forall value count, count <> 0 ->
        centered (final (calibrate (value, count) turning_preset_gyro)) = true)
  /\ (centered turning_preset_gyro = true ->
      (forall smp, centered (final (calibrate smp turning_preset_gyro)) = true)
      /\ centered (final (reset turning_preset_gyro)) = true
      /\ (forall v, centered (final (setSensitivity v turning_preset_gyro)) = true)
      /\ (forall volts, centered (final (setDeadband volts turning_preset_gyro)) = true)
      /\ centered (final (free turning_preset_gyro)) = true).
Proof.
  assert (H1 : analog (self turning_preset_gyro) = Some 0)
    by (vm_compute; reflexivity).
  assert (H2 : channels (world turning_preset_gyro) !! 0 = Some turning_preset_port)
    by (vm_compute; reflexivity).
  split; [split; assumption|].
  split; [vm_compute; reflexivity|].
  exact (center_follows turning_preset_gyro 0 turning_preset_port H1 H2).
Defined.

(** ** More on release *)

(** X12: [free] never touches a channel the driver did not allocate: when
    [channelAllocated] is false it returns with the driver object, every
    channel and the trace of channel calls unchanged, having only
    unregistered the driver from LiveWindow. *)
Theorem free_keeps_borrowed_channel (s : State) :
  channelAllocated (self s) = false ->
  exists s',
    free s = Ok tt s'
    /\ self s' = self s
    /\ channels (world s') = channels (world s)
    /\ calls (world s') = calls (world s)
    /\ liveWindow (world s') !! oid (self s) = None.
Proof.
  intros Hown. rewrite (free_borrowed s Hown).
  eexists. split; [reflexivity|]. record_simpl.
  repeat split. apply lookup_delete_eq.
Qed.

Lemma free_keeps_borrowed_channel_witness :
  channelAllocated (self turning_preset_gyro) = false
  /\ exists s',
       free turning_preset_gyro = Ok tt s'
       /\ self s' = self turning_preset_gyro
       /\ channels (world s') = channels (world turning_preset_gyro)
       /\ calls (world s') = calls (world turning_preset_gyro)
       /\ liveWindow (world s') !! oid (self turning_preset_gyro) = None.
Proof.
  assert (H1 : channelAllocated (self turning_preset_gyro) = false)
    by (vm_compute; reflexivity).
  split; [exact H1|].
  exact (free_keeps_borrowed_channel turning_preset_gyro H1).
Defined.

(** [free] on a driver that owns its channel, state to state. *)
Lemma free_owned_state (s : State) (r : Z) (a : AnalogInput) :
  analog (self s) = Some r ->
  channels (world s) !! r = Some a ->
  channelAllocated (self s) = true ->
  free s
  = Ok tt
      (mkState (set_analog None (self s))
         (mkWorld (<[r := set_allocated false a]> (channels (world s)))
            (globalSampleRate (world s)) (simulation (world s)) (clock (world s))
            (usageReports (world s))
            (delete (oid (self s)) (liveWindow (world s)))
            ((r, Free) :: calls (world s)))).
Proof.
  intros Hr Ha Hown. run. f_equal; try same_state.
Qed.

(** X13: [free] on a driver that allocated its channel frees that channel
    once and drops the reference: the channel is marked released, one [free]
    call is made on it and no other channel changes; the driver is
    unregistered from LiveWindow (other registrations stay); [center],
    [offset] and the sensitivity stay; a second [free] makes no further call
    on the channel. *)
Theorem free_releases_owned_channel
    (s : State) (r : Z) (a : AnalogInput) :
  analog (self s) = Some r ->
  channels (world s) !! r = Some a ->
  channelAllocated (self s) = true ->
  exists s',
    free s = Ok tt s'
    /\ analog (self s') = None
    /\ channels (world s') !! r = Some (set_allocated false a)
    /\ (forall r', r' <> r -> channels (world s') !! r' = channels (world s) !! r')
    /\ calls (world s') = (r, Free) :: calls (world s)
    /\ liveWindow (world s') !! oid (self s) = None
    /\ (forall j, j <> oid (self s) ->
          liveWindow (world s') !! j = liveWindow (world s) !! j)
    /\ center (self s') = center (self s)
    /\ offset (self s') = offset (self s)
    /\ voltsPerDegreePerSecond (self s') = voltsPerDegreePerSecond (self s)
    /\ calls (world (final (free s'))) = calls (world s').
Proof.
  intros Hr Ha Hown. rewrite (free_owned_state s r a Hr Ha Hown).
  eexists. split; [reflexivity|]. cbn [self world analog channels calls liveWindow
    center offset voltsPerDegreePerSecond set_analog].
  split; [reflexivity|]. split; [apply lookup_insert_eq|].
  split; [intros r' Hne; apply lookup_insert_ne; congruence|].
  split; [reflexivity|]. split; [apply lookup_delete_eq|].
  split; [intros j Hne; apply lookup_delete_ne; congruence|].
  split; [reflexivity|]. split; [reflexivity|]. split; [reflexivity|].
  rewrite free_released by reflexivity. reflexivity.
Qed.

Lemma free_releases_owned_channel_witness :
  (analog (self turning_gyro) = Some 0
   /\ channels (world turning_gyro) !! 0 = Some turning_port
   /\ channelAllocated (self turning_gyro) = true)
  /\ exists s',
       free turning_gyro = Ok tt s'
       /\ analog (self s') = None
       /\ channels (world s') !! 0 = Some (set_allocated false turning_port)
       /\ (forall r', r' <> 0 ->
             channels (world s') !! r' = channels (world turning_gyro) !! r')
       /\ calls (world s') = (0, Free) :: calls (world turning_gyro)
       /\ liveWindow (world s') !! oid (self turning_gyro) = None
       /\ (forall j, j <> oid (self turning_gyro) ->
             liveWindow (world s') !! j = liveWindow (world turning_gyro) !! j)
       /\ center (self s') = center (self turning_gyro)
       /\ offset (self s') = offset (self turning_gyro)
       /\ voltsPerDegreePerSecond (self s')
          = voltsPerDegreePerSecond (self turning_gyro)
       /\ calls (world (final (free s'))) = calls (world s').
Proof.
  assert (H1 : analog (self turning_gyro) = Some 0) by (vm_compute; reflexivity).
  assert (H2 : channels (world turning_gyro) !! 0 = Some turning_port)
    by (vm_compute; reflexivity).
  assert (H3 : channelAllocated (self turning_gyro) = true)
    by (vm_compute; reflexivity).
  split; [repeat split; assumption|].
  exact (free_releases_owned_channel turning_gyro 0 turning_port H1 H2 H3).
Defined.

(** X14: after [free] on a driver that allocated its channel, [reset] and
    [setDeadband] return and change nothing, [getCenter] and [getOffset]
    still return the stored values, and [calibrate], which does not test
    for a released channel, raises [AttributeError] and changes nothing. *)
Theorem released_driver_methods
    (s : State) (r : Z) (a : AnalogInput) (c : Z) (off : Q) :
  analog (self s) = Some r ->
  channels (world s) !! r = Some a ->
  channelAllocated (self s) = true ->
  center (self s) = Some c ->
  offset (self s) = Some off ->
  exists s',
    free s = Ok tt s'
    /\ reset s' = Ok tt s'
    /\ (forall volts, setDeadband volts s' = Ok tt s')
    /\ getCenter s' = Ok c s'
    /\ getOffset s' = Ok off s'
    /\ (forall smp, calibrate smp s' = Raise Py.AttributeError s').
Proof.
  intros Hr Ha Hown Hc Hoff.
  rewrite (free_owned_state s r a Hr Ha Hown).
  eexists. split; [reflexivity|].
  split; [apply reset_released; reflexivity|].
  split; [intros volts; apply setDeadband_released; reflexivity|].
  split; [run; reflexivity|]. split; [run; reflexivity|].
  intros smp. run. reflexivity.
Qed.

Lemma released_driver_methods_witness :
  (analog (self turning_gyro) = Some 0
   /\ channels (world turning_gyro) !! 0 = Some turning_port
   /\ channelAllocated (self turning_gyro) = true
   /\ center (self turning_gyro) = Some 500000
   /\ offset (self turning_gyro) = Some 0.000%Q)
  /\ exists s',
       free turning_gyro = Ok tt s'
       /\ reset s' = Ok tt s'
       /\ (forall volts, setDeadband volts s' = Ok tt s')
       /\ getCenter s' = Ok 500000 s'
       /\ getOffset s' = Ok 0.000%Q s'
       /\ (forall smp, calibrate smp s' = Raise Py.AttributeError s').
Proof.
  assert (H1 : analog (self turning_gyro) = Some 0) by (vm_compute; reflexivity).
  assert (H2 : channels (world turning_gyro) !! 0 = Some turning_port)
    by (vm_compute; reflexivity).
  assert (H3 : channelAllocated (self turning_gyro) = true)
    by (vm_compute; reflexivity).
  assert (H4 : center (self turning_gyro) = Some 500000)
    by (vm_compute; reflexivity).
  assert (H5 : offset (self turning_gyro) = Some 0.000%Q)
    by (vm_compute; reflexivity).
  split; [repeat split; assumption|].
  exact (released_driver_methods turning_gyro 0 turning_port 500000 0.000%Q
           H1 H2 H3 H4 H5).
Defined.

(** ** More on measurement *)

(** X15: [getAngle], [getRate], [getCenter] and [getOffset] never change the
    driver or anything outside it, whether they return or raise. *)
Theorem measurement_reads_only (s : State) :
  final (getAngle s) = s
  /\ final (getRate s) = s
  /\ final (getCenter s) = s
  /\ final (getOffset s) = s.
Proof.
  repeat split.
  - destruct (analog (self s)) as [r|] eqn:Hr; [|run; reflexivity].
    destruct (channels (world s) !! r) as [a|] eqn:Ha; [|run; reflexivity].
    destruct (accumulator a) as [value count] eqn:Hacc.
    destruct (offset (self s)) as [off|] eqn:Hoff; [|run; reflexivity].
    destruct (Qeq_bool (globalSampleRate (world s)
                        * voltsPerDegreePerSecond (self s)) 0%Q) eqn:Hq;
      run; reflexivity.
  - destruct (analog (self s)) as [r|] eqn:Hr; [|run; reflexivity].
    destruct (channels (world s) !! r) as [a|] eqn:Ha; [|run; reflexivity].
    destruct (center (self s)) as [c|] eqn:Hc; [|run; reflexivity].
    destruct (offset (self s)) as [off|] eqn:Hoff; [|run; reflexivity].
    destruct (Qeq_bool (Py.float_of_int (Py.shl1 (oversampleBits a))
                        * voltsPerDegreePerSecond (self s)) 0%Q) eqn:Hq;
      run; reflexivity.
  - destruct (center (self s)) eqn:Hc; run; reflexivity.
  - destruct (offset (self s)) eqn:Hoff; run; reflexivity.
Qed.

Lemma with_accumulator_lookup (s : State) (r : Z) (a : AnalogInput) (acc : Z * Z) :
  channels (world (with_accumulator r a acc s)) !! r
  = Some (set_accumulator (fun _ => acc) a).
Proof. apply lookup_insert_eq. Qed.

(** The conversion factor of [getAngle] is positive when the LSB weight and
    the divisor are. *)
Lemma angle_factor_pos (lsb : Q) (bits : N) (divisor : Q) :
  (0 < lsb)%Q -> (0 < divisor)%Q ->
  (0 < 1e-9 * lsb * Py.float_of_int (Py.shl1 bits) / divisor)%Q.
Proof.
  intros Hl Hd.
  assert (Hk : (0 < Py.float_of_int (Py.shl1 bits))%Q).
  { unfold Py.float_of_int. change 0%Q with (inject_Z 0). rewrite <- Zlt_Qlt.
    apply shl1_pos. }
  unfold Qdiv. apply Qmult_lt_0_compat; [|apply Qinv_lt_0_compat; exact Hd].
  apply Qmult_lt_0_compat; [|exact Hk].
  apply Qmult_lt_0_compat; [reflexivity | exact Hl].
Qed.

(** X16: with a positive LSB weight and a positive divisor (sample rate
    times sensitivity), [getAngle] does not decrease when the accumulated
    value grows at the same count, and its sign follows the accumulated value
    against count * offset: it is not negative when value >= count * offset
    and not positive when value <= count * offset. *)
Theorem getAngle_monotone
    (s : State) (r : Z) (a : AnalogInput) (off : Q) (v1 v2 c : Z) :
  analog (self s) = Some r ->
  channels (world s) !! r = Some a ->
  offset (self s) = Some off ->
  (0 < LSBWeight a)%Q ->
  (0 < globalSampleRate (world s) * voltsPerDegreePerSecond (self s))%Q ->
  let s1 := with_accumulator r a (v1, c) s in
  let s2 := with_accumulator r a (v2, c) s in
  exists x1 x2,
    getAngle s1 = Ok x1 s1
    /\ getAngle s2 = Ok x2 s2
    /\ (v1 <= v2 -> (x1 <= x2)%Q)
    /\ ((inject_Z c * off <= inject_Z v1)%Q -> (0 <= x1)%Q)
    /\ ((inject_Z v1 <= inject_Z c * off)%Q -> (x1 <= 0)%Q).
Proof.
  intros Hr Ha Hoff Hlsb Hdiv s1 s2.
  pose proof (Qpos_nonzero _ Hdiv) as Hden.
  do 2 eexists.
  split; [exact (getAngle_ok s1 r _ Hr (with_accumulator_lookup s r a _) off Hoff Hden)|].
  split; [exact (getAngle_ok s2 r _ Hr (with_accumulator_lookup s r a _) off Hoff Hden)|].
  subst s1 s2. unfold with_accumulator. record_simpl.
  pose proof (angle_factor_pos (LSBWeight a) (averageBits a) _ Hlsb Hdiv) as Hf.
  set (f := (1e-9 * LSBWeight a * Py.float_of_int (Py.shl1 (averageBits a))
             / (globalSampleRate (world s) * voltsPerDegreePerSecond (self s)))%Q)
    in *.
  assert (E : forall v : Z,
             ((Py.float_of_int v - Py.float_of_int c * off) * 1e-9 * LSBWeight a
              * Py.float_of_int (Py.shl1 (averageBits a))
              / (globalSampleRate (world s) * voltsPerDegreePerSecond (self s))
              == (inject_Z v - inject_Z c * off) * f)%Q).
  { intros v. unfold f, Py.float_of_int, Qdiv. ring. }
  rewrite !E. split; [|split].
  - intros Hv. rewrite Zle_Qle in Hv.
    apply Qmult_le_compat_r; [lra | apply Qlt_le_weak; exact Hf].
  - intros Hv. apply Qmult_le_0_compat; [lra | apply Qlt_le_weak; exact Hf].
  - intros Hv.
    assert (H0 : (0 <= (inject_Z c * off - inject_Z v1) * f)%Q)
      by (apply Qmult_le_0_compat; [lra | apply Qlt_le_weak; exact Hf]).
    assert (E2 : ((inject_Z v1 - inject_Z c * off) * f
                  == - ((inject_Z c * off - inject_Z v1) * f))%Q) by ring.
    rewrite E2. lra.
Qed.

Lemma getAngle_monotone_witness :
  (analog (self preset_gyro) = Some 0
   /\ channels (world preset_gyro) !! 0 = Some preset_port
   /\ offset (self preset_gyro) = Some 0.25%Q
   /\ (0 < LSBWeight preset_port)%Q
   /\ (0 < globalSampleRate (world preset_gyro)
           * voltsPerDegreePerSecond (self preset_gyro))%Q)
  /\ (let s1 := with_accumulator 0 preset_port (-200, 7) preset_gyro in
      let s2 := with_accumulator 0 preset_port (5000000, 7) preset_gyro in
      exists x1 x2,
        getAngle s1 = Ok x1 s1
        /\ getAngle s2 = Ok x2 s2
        /\ (-200 <= 5000000 -> (x1 <= x2)%Q)
        /\ ((inject_Z 7 * 0.25 <= inject_Z (-200))%Q -> (0 <= x1)%Q)
        /\ ((inject_Z (-200) <= inject_Z 7 * 0.25)%Q -> (x1 <= 0)%Q)).
Proof.
  assert (H1 : analog (self preset_gyro) = Some 0) by (vm_compute; reflexivity).
  assert (H2 : channels (world preset_gyro) !! 0 = Some preset_port)
    by (vm_compute; reflexivity).
  assert (H3 : offset (self preset_gyro) = Some 0.25%Q)
    by (vm_compute; reflexivity).
  assert (H4 : (0 < LSBWeight preset_port)%Q) by reflexivity.
  assert (H5 : (0 < globalSampleRate (world preset_gyro)
                    * voltsPerDegreePerSecond (self preset_gyro))%Q)
    by (vm_compute; reflexivity).
  split; [repeat split; assumption|].
  exact (getAngle_monotone preset_gyro 0 preset_port 0.25%Q (-200) 5000000 7
           H1 H2 H3 H4 H5).
Defined.

(** X17: [getAngle] returns zero when the accumulated value equals
    count * offset, that is when the samples gathered since the last reset
    average exactly the calibrated residual: a gyro at rest does not drift. *)
Theorem getAngle_at_rest
    (s : State) (r : Z) (a : AnalogInput) (value count : Z) (off : Q) :
  analog (self s) = Some r ->
  channels (world s) !! r = Some a ->
  accumulator a = (value, count) ->
  offset (self s) = Some off ->
  ~ (globalSampleRate (world s) * voltsPerDegreePerSecond (self s) == 0)%Q ->
  (inject_Z value == inject_Z count * off)%Q ->
  exists angle, getAngle s = Ok angle s /\ (angle == 0)%Q.
Proof.
  intros Hr Ha Hacc Hoff Hden Hrest.
  rewrite (getAngle_ok s r a Hr Ha off Hoff Hden).
  eexists. split; [reflexivity|].
  rewrite Hacc. record_simpl. unfold Py.float_of_int.
  rewrite Hrest. unfold Qdiv. ring.
Qed.

Lemma getAngle_at_rest_witness :
  (analog (self resting_gyro) = Some 0
   /\ channels (world resting_gyro) !! 0 = Some resting_port
   /\ accumulator resting_port = (250, 1000)
   /\ offset (self resting_gyro) = Some 0.25%Q
   /\ ~ (globalSampleRate (world resting_gyro)
         * voltsPerDegreePerSecond (self resting_gyro) == 0)%Q
   /\ (inject_Z 250 == inject_Z 1000 * 0.25)%Q)
  /\ exists angle,
       getAngle resting_gyro = Ok angle resting_gyro /\ (angle == 0)%Q.
Proof.
  assert (H1 : analog (self resting_gyro) = Some 0) by (vm_compute; reflexivity).
  assert (H2 : channels (world resting_gyro) !! 0 = Some resting_port)
    by (vm_compute; reflexivity).
  assert (H3 : accumulator resting_port = (250, 1000)) by reflexivity.
  assert (H4 : offset (self resting_gyro) = Some 0.25%Q)
    by (vm_compute; reflexivity).
  assert (H5 : ~ (globalSampleRate (world resting_gyro)
                  * voltsPerDegreePerSecond (self resting_gyro) == 0)%Q)
    by (vm_compute; intros H; discriminate H).
  assert (H6 : (inject_Z 250 == inject_Z 1000 * 0.25)%Q) by reflexivity.
  split; [repeat split; assumption|].
  exact (getAngle_at_rest resting_gyro 0 resting_port 250 1000 0.25%Q
           H1 H2 H3 H4 H5 H6).
Defined.

(** [getRate] when the sensitivity is zero. *)
Lemma getRate_zero_divisor (s : State) (r : Z) (a : AnalogInput) (c : Z) (off : Q) :
  analog (self s) = Some r ->
  channels (world s) !! r = Some a ->
  center (self s) = Some c ->
  offset (self s) = Some off ->
  (voltsPerDegreePerSecond (self s) == 0)%Q ->
  getRate s = Raise Py.ZeroDivisionError s.
Proof.
  intros Hr Ha Hc Hoff Hv.
  assert (Hden : Qeq_bool (Py.float_of_int (Py.shl1 (oversampleBits a))
                           * voltsPerDegreePerSecond (self s)) 0 = true).
  { apply Qeq_eq_bool. rewrite Hv. ring. }
  run. reflexivity.
Qed.

(** X18: with a positive LSB weight and a positive sensitivity the rate
    follows the averaged value against the calibrated baseline
    center + offset: [getRate] returns a rate that is not negative when
    averageValue >= center + offset, not positive when
    averageValue <= center + offset, and so zero when they are equal. *)
Theorem getRate_sign
    (s : State) (r : Z) (a : AnalogInput) (c : Z) (off : Q) :
  analog (self s) = Some r ->
  channels (world s) !! r = Some a ->
  center (self s) = Some c ->
  offset (self s) = Some off ->
  (0 < LSBWeight a)%Q ->
  (0 < voltsPerDegreePerSecond (self s))%Q ->
  exists rate,
    getRate s = Ok rate s
    /\ ((inject_Z c + off <= inject_Z (averageValue a))%Q -> (0 <= rate)%Q)
    /\ ((inject_Z (averageValue a) <= inject_Z c + off)%Q -> (rate <= 0)%Q)
    /\ ((inject_Z (averageValue a) == inject_Z c + off)%Q -> (rate == 0)%Q).
Proof.
  intros Hr Ha Hc Hoff Hlsb Hv.
  rewrite (getRate_ok s r a Hr Ha c off Hc Hoff (Qpos_nonzero _ Hv)).
  eexists. split; [reflexivity|].
  unfold Py.float_of_int.
  set (d := (inject_Z (averageValue a) - (inject_Z c + off))%Q).
  set (k := inject_Z (Py.shl1 (oversampleBits a))).
  assert (Hk : (0 < k)%Q).
  { subst k. change 0%Q with (inject_Z 0). rewrite <- Zlt_Qlt. apply shl1_pos. }
  set (p := (1e-9 * LSBWeight a / (k * voltsPerDegreePerSecond (self s)))%Q).
  assert (Hp : (0 < p)%Q).
  { unfold p. unfold Qdiv. apply Qmult_lt_0_compat.
    - apply Qmult_lt_0_compat; [reflexivity | exact Hlsb].
    - apply Qinv_lt_0_compat. apply Qmult_lt_0_compat; assumption. }
  assert (E : (d * 1e-9 * LSBWeight a / (k * voltsPerDegreePerSecond (self s))
               == d * p)%Q).
  { unfold p. field.
    repeat split; first [apply Qpos_nonzero; assumption | intros X; discriminate X]. }
  rewrite E. split; [|split]; intros H.
  - apply Qmult_le_0_compat; [subst d; lra | apply Qlt_le_weak; exact Hp].
  - assert (H0 : (0 <= (- d) * p)%Q)
      by (apply Qmult_le_0_compat; [subst d; lra | apply Qlt_le_weak; exact Hp]).
    assert (E2 : (d * p == - ((- d) * p))%Q) by ring.
    rewrite E2. lra.
  - assert (Hd : (d == 0)%Q) by (subst d; lra). rewrite Hd. ring.
Qed.

Lemma getRate_sign_witness :
  (analog (self preset_gyro) = Some 0
   /\ channels (world preset_gyro) !! 0 = Some preset_port
   /\ center (self preset_gyro) = Some 1000
   /\ offset (self preset_gyro) = Some 0.25%Q
   /\ (0 < LSBWeight preset_port)%Q
   /\ (0 < voltsPerDegreePerSecond (self preset_gyro))%Q)
  /\ exists rate,
       getRate preset_gyro = Ok rate preset_gyro
       /\ ((inject_Z 1000 + 0.25 <= inject_Z (averageValue preset_port))%Q
           -> (0 <= rate)%Q)
       /\ ((inject_Z (averageValue preset_port) <= inject_Z 1000 + 0.25)%Q
           -> (rate <= 0)%Q)
       /\ ((inject_Z (averageValue preset_port) == inject_Z 1000 + 0.25)%Q
           -> (rate == 0)%Q).
Proof.
  assert (H1 : analog (self preset_gyro) = Some 0) by (vm_compute; reflexivity).
  assert (H2 : channels (world preset_gyro) !! 0 = Some preset_port)
    by (vm_compute; reflexivity).
  assert (H3 : center (self preset_gyro) = Some 1000) by (vm_compute; reflexivity).
  assert (H4 : offset (self preset_gyro) = Some 0.25%Q) by (vm_compute; reflexivity).
  assert (H5 : (0 < LSBWeight preset_port)%Q) by reflexivity.
  assert (H6 : (0 < voltsPerDegreePerSecond (self preset_gyro))%Q)
    by (vm_compute; reflexivity).
  split; [repeat split; assumption|].
  exact (getRate_sign preset_gyro 0 preset_port 1000 0.25%Q H1 H2 H3 H4 H5 H6).
Defined.

(** X19: [setSensitivity] accepts any number: after [setSensitivity] with a
    sensitivity equal to zero, [getRate] and [getAngle] on a calibrated
    driver that is not released both raise [ZeroDivisionError]; the call
    itself changes nothing but the stored sensitivity. *)
Theorem setSensitivity_zero_faults
    (s : State) (r : Z) (a : AnalogInput) (c : Z) (off : Q) (v : Q) :
  analog (self s) = Some r ->
  channels (world s) !! r = Some a ->
  center (self s) = Some c ->
  offset (self s) = Some off ->
  (v == 0)%Q ->
  exists s',
    setSensitivity v s = Ok tt s'
    /\ world s' = world s
    /\ center (self s') = Some c
    /\ offset (self s') = Some off
    /\ analog (self s') = Some r
    /\ getRate s' = Raise Py.ZeroDivisionError s'
    /\ getAngle s' = Raise Py.ZeroDivisionError s'.
Proof.
  intros Hr Ha Hc Hoff Hv.
  set (s' := on_self (set_voltsPerDegreePerSecond v) s).
  exists s'. split; [reflexivity|]. split; [reflexivity|].
  split; [exact Hc|]. split; [exact Hoff|]. split; [exact Hr|]. split.
  - apply (getRate_zero_divisor s' r a c off Hr Ha Hc Hoff). exact Hv.
  - apply (getAngle_zero_divisor s' r a Hr Ha off Hoff).
    subst s'. record_simpl. rewrite Hv. ring.
Qed.

Lemma setSensitivity_zero_faults_witness :
  (analog (self turning_gyro) = Some 0
   /\ channels (world turning_gyro) !! 0 = Some turning_port
   /\ center (self turning_gyro) = Some 500000
   /\ offset (self turning_gyro) = Some 0.000%Q
   /\ (0.0 == 0)%Q)
  /\ exists s',
       setSensitivity 0.0 turning_gyro = Ok tt s'
       /\ world s' = world turning_gyro
       /\ center (self s') = Some 500000
       /\ offset (self s') = Some 0.000%Q
       /\ analog (self s') = Some 0
       /\ getRate s' = Raise Py.ZeroDivisionError s'
       /\ getAngle s' = Raise Py.ZeroDivisionError s'.
Proof.
  assert (H1 : analog (self turning_gyro) = Some 0) by (vm_compute; reflexivity).
  assert (H2 : channels (world turning_gyro) !! 0 = Some turning_port)
    by (vm_compute; reflexivity).
  assert (H3 : center (self turning_gyro) = Some 500000)
    by (vm_compute; reflexivity).
  assert (H4 : offset (self turning_gyro) = Some 0.000%Q)
    by (vm_compute; reflexivity).
  assert (H5 : (0.0 == 0)%Q) by reflexivity.
  split; [repeat split; assumption|].
  exact (setSensitivity_zero_faults turning_gyro 0 turning_port 500000 0.000%Q
           0.0%Q H1 H2 H3 H4 H5).
Defined.

(** X20: [reset] and [setDeadband] do not change what [getRate] returns:
    on a calibrated driver that is not released, with a non-zero LSB weight
    and sensitivity, [getRate] returns the same rate before and after either
    call. *)
Theorem getRate_unchanged_by_reset_and_deadband
    (s : State) (r : Z) (a : AnalogInput) (c : Z) (off : Q) (volts : Q) :
  analog (self s) = Some r ->
  channels (world s) !! r = Some a ->
  center (self s) = Some c ->
  offset (self s) = Some off ->
  ~ (LSBWeight a == 0)%Q ->
  ~ (voltsPerDegreePerSecond (self s) == 0)%Q ->
  exists rate s1 s2,
    getRate s = Ok rate s
    /\ reset s = Ok tt s1
    /\ getRate s1 = Ok rate s1
    /\ setDeadband volts s = Ok tt s2
    /\ getRate s2 = Ok rate s2.
Proof.
  intros Hr Ha Hc Hoff Hlsb Hv.
  rewrite (getRate_ok s r a Hr Ha c off Hc Hoff Hv).
  rewrite (reset_ok s r a Hr Ha).
  rewrite (setDeadband_ok s r a volts Hr Ha Hlsb).
  do 3 eexists. split; [reflexivity|]. split; [reflexivity|]. split.
  - match goal with |- getRate ?s1 = _ =>
      exact (getRate_ok s1 r _ Hr (lookup_insert_eq _ _ _) c off Hc Hoff Hv)
    end.
  - split; [reflexivity|].
    match goal with |- getRate ?s2 = _ =>
      exact (getRate_ok s2 r _ Hr (lookup_insert_eq _ _ _) c off Hc Hoff Hv)
    end.
Qed.

Lemma getRate_unchanged_by_reset_and_deadband_witness :
  (analog (self turning_gyro) = Some 0
   /\ channels (world turning_gyro) !! 0 = Some turning_port
   /\ center (self turning_gyro) = Some 500000
   /\ offset (self turning_gyro) = Some 0.000%Q
   /\ ~ (LSBWeight turning_port == 0)%Q
   /\ ~ (voltsPerDegreePerSecond (self turning_gyro) == 0)%Q)
  /\ exists rate s1 s2,
       getRate turning_gyro = Ok rate turning_gyro
       /\ reset turning_gyro = Ok tt s1
       /\ getRate s1 = Ok rate s1
       /\ setDeadband 0.001 turning_gyro = Ok tt s2
       /\ getRate s2 = Ok rate s2.
Proof.
  assert (H1 : analog (self turning_gyro) = Some 0) by (vm_compute; reflexivity).
  assert (H2 : channels (world turning_gyro) !! 0 = Some turning_port)
    by (vm_compute; reflexivity).
  assert (H3 : center (self turning_gyro) = Some 500000)
    by (vm_compute; reflexivity).
  assert (H4 : offset (self turning_gyro) = Some 0.000%Q)
    by (vm_compute; reflexivity).
  assert (H5 : ~ (LSBWeight turning_port == 0)%Q)
    by (vm_compute; intros H; discriminate H).
  assert (H6 : ~ (voltsPerDegreePerSecond (self turning_gyro) == 0)%Q)
    by (vm_compute; intros H; discriminate H).
  split; [repeat split; assumption|].
  exact (getRate_unchanged_by_reset_and_deadband turning_gyro 0 turning_port
           500000 0.000%Q 0.001%Q H1 H2 H3 H4 H5 H6).
Defined.

(** X21: the values read with [getCenter] and [getOffset] work as
    presets.  When a driver A was constructed by calibration, a driver B
    constructed with center = A's [getCenter] and offset = A's [getOffset]
    returns the same center and offset from its own getters, and on a channel
    with the same LSB weight and the same averaged value [getRate] returns
    the same rate on B as on A. *)
Theorem presets_reproduce_calibration
    (chanA chanB : ChannelArg) (value count valueB countB : Z)
    (sA0 sB0 : State) (aA aB : AnalogInput) :
  channels (world sA0) !! channel_ref chanA = Some aA ->
  ~ (LSBWeight aA == 0)%Q ->
  count <> 0 ->
  channels (world sB0) !! channel_ref chanB = Some aB ->
  LSBWeight aB = LSBWeight aA ->
  averageValue aB = averageValue aA ->
  exists sA c off sB rate,
    __init__ chanA None None (value, count) sA0 = Ok tt sA
    /\ getCenter sA = Ok c sA
    /\ getOffset sA = Ok off sA
    /\ __init__ chanB (Some (Py.Int c)) (Some (Py.Float off)) (valueB, countB) sB0
       = Ok tt sB
    /\ getCenter sB = Ok c sB
    /\ getOffset sB = Ok off sB
    /\ getRate sA = Ok rate sA
    /\ getRate sB = Ok rate sB.
Proof.
  intros HaA HlsbA Hcount HaB Hlsb Havg.
  assert (HlsbB : ~ (LSBWeight aB == 0)%Q) by (rewrite Hlsb; exact HlsbA).
  destruct (init_configures chanA None None value count sA0 aA HaA HlsbA
              (fun _ => Hcount))
    as (sA & aA' & c & off & HrunA & HrA & _ & HvA & HcA & HoA & HaA' & _ & HosA
        & _ & _ & _ & HlA & HavA & _).
  assert (Hc' : getCenter sA = Ok c sA) by (run; reflexivity).
  assert (Ho' : getOffset sA = Ok off sA) by (run; reflexivity).
  pose proof (init_presets_to chanB (Py.Int c) (Py.Float off) (valueB, countB)
                sB0 aB HaB HlsbB) as HrunB.
  cbn [Py.int Py.float] in HrunB.
  set (sB := adopted chanB aB c off sB0) in *.
  assert (HvA0 : ~ (voltsPerDegreePerSecond (self sA) == 0)%Q).
  { rewrite HvA. intros E. discriminate E. }
  assert (HvB0 : ~ (voltsPerDegreePerSecond (self sB) == 0)%Q).
  { intros E. discriminate E. }
  exists sA, c, off, sB. eexists.
  split; [exact HrunA|]. split; [exact Hc'|]. split; [exact Ho'|].
  split; [exact HrunB|].
  split; [reflexivity|]. split; [reflexivity|].
  split; [exact (getRate_ok sA _ aA' HrA HaA' c off HcA HoA HvA0)|].
  rewrite (getRate_ok sB (channel_ref chanB) _ eq_refl (lookup_insert_eq _ _ _)
             c off eq_refl eq_refl HvB0).
  subst sB. cbn [adopted after_setup self voltsPerDegreePerSecond set_offset
    set_center]. record_simpl.
  rewrite HavA, HlA, HosA, HvA.
  unfold configured, claimed.
  destruct chanB; cbn [owns]; record_simpl; rewrite Havg, Hlsb; reflexivity.
Qed.

Lemma presets_reproduce_calibration_witness :
  (channels (world boot) !! channel_ref (Index 0) = Some port0
   /\ ~ (LSBWeight port0 == 0)%Q
   /\ 1000 <> 0
   /\ channels (world robot) !! channel_ref (Object 0) = Some port0
   /\ LSBWeight port0 = LSBWeight port0
   /\ averageValue port0 = averageValue port0)
  /\ exists sA c off sB rate,
       __init__ (Index 0) None None (500000250, 1000) boot = Ok tt sA
       /\ getCenter sA = Ok c sA
       /\ getOffset sA = Ok off sA
       /\ __init__ (Object 0) (Some (Py.Int c)) (Some (Py.Float off)) (0, 0) robot
          = Ok tt sB
       /\ getCenter sB = Ok c sB
       /\ getOffset sB = Ok off sB
       /\ getRate sA = Ok rate sA
       /\ getRate sB = Ok rate sB.
Proof.
  assert (H1 : channels (world boot) !! channel_ref (Index 0) = Some port0)
    by (vm_compute; reflexivity).
  assert (H2 : ~ (LSBWeight port0 == 0)%Q)
    by (vm_compute; intros H; discriminate H).
  assert (H3 : 1000 <> 0) by lia.
  assert (H4 : channels (world robot) !! channel_ref (Object 0) = Some port0)
    by (vm_compute; reflexivity).
  split; [repeat split; assumption|].
  exact (presets_reproduce_calibration (Index 0) (Object 0) 500000250 1000 0 0
           boot robot port0 port0 H1 H2 H3 H4 eq_refl eq_refl).
Defined.
